(** * noted: cost tracking, item cache and response parsing

    A shallow embedding of [src/cost_tracker.py] (classes [CostTracker] and
    [ItemCache]) and of [ClaudeProcessor._parse_response] from
    [src/claude_interface.py], with the properties the specification states
    about them.

    Conventions of the embedding:
    - a Python [str] is a [string]; its characters are the code points
      0..255, on which [str.lower] works character by character;
    - a Python [int] is a [Z]; a Python [float] is a primitive binary64
      [float], so that sums, products and quotients are the IEEE ones the
      interpreter computes;
    - a raised exception is the [Raise] case of [result];
    - a JSON document on disk is a [file]: absent, unreadable, holding text
      that is not JSON, or holding a decoded document. *)

From Stdlib Require Import ZArith List String Ascii Bool Lia DecimalString.
From Stdlib Require Import Floats.PrimFloat Floats.SpecFloat Floats.FloatOps.
Import ListNotations.

Set Warnings "-inexact-float,-register-all".
Local Open Scope Z_scope.

(** ** Exceptions *)

Inductive exn : Set :=
| ZeroDivisionError
| OverflowError
| TypeError
| AttributeError
| KeyError
| ValueError
| JSONDecodeError
| RecursionError
| OSError.

Inductive result (A : Type) : Type :=
| Ok (a : A)
| Raise (e : exn).

Arguments Ok {A} a.
Arguments Raise {A} e.

Definition bind {A B : Type} (m : result A) (k : A -> result B) : result B :=
  match m with
  | Ok a => k a
  | Raise e => Raise e
  end.

Notation "x <- m ;; k" := (bind m (fun x => k))
  (at level 61, m at next level, right associativity).

(** ** The pieces of the Python runtime the code relies on *)

Module Py.

(** [len(s)] *)
Definition len (s : string) : Z := Z.of_nat (String.length s).

(** One character of [str.lower()]: A-Z and the upper-case letters of
    U+00C0..U+00DE (the multiplication sign U+00D7 apart) move up by 32. *)
Definition lower_char (c : ascii) : ascii :=
  let n := nat_of_ascii c in
  if ((65 <=? n)%nat && (n <=? 90)%nat)
     || ((192 <=? n)%nat && (n <=? 222)%nat && negb (n =? 215)%nat)
  then ascii_of_nat (n + 32)
  else c.

(** [s.lower()] *)
Fixpoint lower (s : string) : string :=
  match s with
  | EmptyString => EmptyString
  | String c s' => String (lower_char c) (lower s')
  end.

(** [s.startswith(p)] *)
Fixpoint startswith (p s : string) : bool :=
  match p, s with
  | EmptyString, _ => true
  | String _ _, EmptyString => false
  | String a p', String b s' => Ascii.eqb a b && startswith p' s'
  end.

(** [sub in s] on strings *)
Fixpoint contains (sub s : string) : bool :=
  startswith sub s
  || match s with
     | EmptyString => false
     | String _ s' => contains sub s'
     end.

(** [s.find(c)] for a one-character [c], counting from index [i] *)
Fixpoint find_from (c : ascii) (s : string) (i : Z) : Z :=
  match s with
  | EmptyString => -1
  | String a s' => if Ascii.eqb a c then i else find_from c s' (i + 1)
  end.

Definition find (c : ascii) (s : string) : Z := find_from c s 0.

(** [s.rfind(c)] for a one-character [c], counting from index [i] *)
Fixpoint rfind_from (c : ascii) (s : string) (i : Z) : Z :=
  match s with
  | EmptyString => -1
  | String a s' =>
      let r := rfind_from c s' (i + 1) in
      if r =? -1 then (if Ascii.eqb a c then i else -1) else r
  end.

Definition rfind (c : ascii) (s : string) : Z := rfind_from c s 0.

(** [s[lo:hi]] for indices that are not negative *)
Definition slice (s : string) (lo hi : Z) : string :=
  substring (Z.to_nat lo) (Z.to_nat (hi - lo)) s.

(** [l[-n:]] for a positive [n] *)
Definition last_n {A : Type} (n : nat) (l : list A) : list A :=
  skipn (List.length l - n) l.

(** An integer as an exact binary number. *)
Definition Z2SF (z : Z) : spec_float :=
  match z with
  | Z0 => S754_zero false
  | Zpos p => S754_finite false p 0
  | Zneg p => S754_finite true p 0
  end.

(** The least magnitude that rounds to nearest out of binary64:
    [2^1024 - 2^970]. *)
Definition float_overflow : Z := 2 ^ 1024 - 2 ^ 970.

(** The quotient of two integers rounded once to the nearest float (ties to
    even), infinite beyond the range. *)
Definition quotient (a b : Z) : float :=
  SF2Prim (SFdiv prec emax (Z2SF a) (Z2SF b)).

(** [a / b] on two [int] *)
Definition int_truediv (a b : Z) : result float :=
  if b =? 0 then Raise ZeroDivisionError
  else if float_overflow * Z.abs b <=? Z.abs a then Raise OverflowError
  else Ok (quotient a b).

(** [float(n)] *)
Definition int_to_float (n : Z) : result float :=
  if float_overflow <=? Z.abs n then Raise OverflowError
  else Ok (quotient n 1).

(** [x / n] for a float [x] and an [int] [n] *)
Definition float_div_int (x : float) (n : Z) : result float :=
  d <- int_to_float n ;;
  if n =? 0 then Raise ZeroDivisionError else Ok (x / d)%float.

(** [round(x, ndigits)] on a float, for [ndigits >= 0]: the decimal with
    [ndigits] fractional digits nearest to the exact value of [x] (ties to
    the even last digit), then the float nearest to that decimal. *)
Definition round (x : float) (ndigits : Z) : float :=
  match Prim2SF x with
  | S754_finite s m e =>
      let p := 10 ^ ndigits in
      let num := if 0 <=? e then Zpos m * 2 ^ e * p else Zpos m * p in
      let den := if 0 <=? e then 1 else 2 ^ (- e) in
      let q := num / den in
      let r := num mod den in
      let n := if 2 * r <? den then q
               else if den <? 2 * r then q + 1
               else if Z.even q then q else q + 1 in
      match n with
      | Zpos n' => quotient (if s then Zneg n' else Zpos n') p
      | _ => if s then neg_zero else zero
      end
  | _ => x
  end.

End Py.

(** ** Files holding one JSON document *)

Inductive file (A : Type) : Type :=
| Absent
| Unreadable
| NotJson
| Holds (doc : A).

Arguments Absent {A}.
Arguments Unreadable {A}.
Arguments NotJson {A}.
Arguments Holds {A} doc.

(** The file and the number of times it has been written. *)
Record store (A : Type) : Type := mkStore {
  content : file A;
  writes : nat
}.

Arguments mkStore {A} content writes.
Arguments content {A} s.
Arguments writes {A} s.

(** [Path.exists()] *)
Definition exists_ {A : Type} (st : store A) : bool :=
  match content st with
  | Absent => false
  | _ => true
  end.

(** [open(path)]: the text of the file, here already split into "decodes"
    and "does not decode". *)
Definition open_ {A : Type} (st : store A) : result (option A) :=
  match content st with
  | Absent | Unreadable => Raise OSError
  | NotJson => Ok None
  | Holds d => Ok (Some d)
  end.

(** [json.load(f)] *)
Definition json_load {A : Type} (f : option A) : result A :=
  match f with
  | None => Raise JSONDecodeError
  | Some d => Ok d
  end.

(** [with open(path, 'w') as f: json.dump(data, f, indent=2)], exact for a
    file that is absent, holds a document or holds text that is not JSON:
    the file then holds the document.  On a file that cannot be opened the
    write of the program may fail or leave the file as it is, which this
    definition does not follow. *)
Definition write_json {A : Type} (data : A) (st : store A) : store A :=
  mkStore (Holds data) (S (writes st)).

(** ** [CostTracker] *)

Module CostTracker.

(** [SONNET_4_PRICING], dollars per million tokens *)
Definition SONNET_4_PRICING : list (string * float) :=
  [ ("input"%string, 3.0%float); ("output"%string, 15.0%float) ].

(** [table[key]] on the pricing table; the two keys the code uses are there,
    an unknown key stands for Python's [KeyError]. *)
Fixpoint price (table : list (string * float)) (key : string) : result float :=
  match table with
  | [] => Raise KeyError
  | (k, v) :: rest => if String.eqb k key then Ok v else price rest key
  end.

(** One entry of ["calls"]. *)
Record CallRecord : Type := mkCall {
  timestamp : string;
  note_id : string;
  input_tokens : Z;
  output_tokens : Z;
  total_tokens : Z;
  cost : float;
  metadata : list (string * string)
}.

(** The log document. *)
Record CostLog : Type := mkLog {
  total_calls : Z;
  total_cost : float;
  calls : list CallRecord
}.

(** [{"total_calls": 0, "total_cost": 0.0, "calls": []}] *)
Definition empty_log : CostLog := mkLog 0 0%float [].

Definition save_log (data : CostLog) (st : store CostLog) : store CostLog :=
  write_json data st.

Definition ensure_log_file (st : store CostLog) : store CostLog :=
  if negb (exists_ st) then save_log empty_log st else st.

(** The [try] reads and decodes; the bare [except] answers the empty log. *)
Definition load_log (st : store CostLog) : CostLog :=
  match (f <- open_ st ;; json_load f) with
  | Ok data => data
  | Raise _ => empty_log
  end.

Definition estimate_tokens (text : string) : Z :=
  Z.max 1 (Py.len text / 4).

Definition calculate_cost (input_tokens output_tokens : Z) : result float :=
  i <- Py.int_truediv input_tokens 1000000 ;;
  pi <- price SONNET_4_PRICING "input" ;;
  let input_cost := (i * pi)%float in
  o <- Py.int_truediv output_tokens 1000000 ;;
  po <- price SONNET_4_PRICING "output" ;;
  let output_cost := (o * po)%float in
  Ok (input_cost + output_cost)%float.

(** [metadata or {}] *)
Definition or_empty (metadata : option (list (string * string)))
  : list (string * string) :=
  match metadata with
  | Some (x :: m) => x :: m
  | _ => []
  end.

(** [now] is the value of [datetime.now().isoformat()] at the call. *)
Definition log_api_call (now : string) (input_text output_text : string)
    (note_id : string) (metadata : option (list (string * string)))
    (st : store CostLog) : result (CallRecord * store CostLog) :=
  let input_tokens := estimate_tokens input_text in
  let output_tokens := estimate_tokens output_text in
  cost <- calculate_cost input_tokens output_tokens ;;
  let call_data :=
    mkCall now note_id input_tokens output_tokens
           (input_tokens + output_tokens) (Py.round cost 6)
           (or_empty metadata) in
  let log_data := load_log st in
  let total_calls' := total_calls log_data + 1 in
  let total_cost' := (total_cost log_data + cost)%float in
  let calls' := calls log_data ++ [call_data] in
  let calls'' :=
    if (100 <? List.length calls')%nat then Py.last_n 100 calls' else calls' in
  Ok (call_data, save_log (mkLog total_calls' total_cost' calls'') st).

(** The dictionary [get_stats] returns; the two estimates are absent from
    the one it returns for a log without calls. *)
Record Stats : Type := mkStats {
  stats_total_calls : Z;
  stats_total_cost : float;
  average_cost : float;
  recent_calls : list CallRecord;
  daily_estimate : option float;
  monthly_estimate : option float
}.

Definition get_stats (st : store CostLog) : result Stats :=
  let log_data := load_log st in
  match calls log_data with
  | [] => Ok (mkStats 0 0%float 0%float [] None None)
  | _ :: _ =>
      let recent_calls := Py.last_n 10 (calls log_data) in
      avg_cost <- Py.float_div_int (total_cost log_data) (total_calls log_data) ;;
      Ok (mkStats (total_calls log_data)
                  (Py.round (total_cost log_data) 4)
                  (Py.round avg_cost 4)
                  recent_calls
                  (Some (Py.round (avg_cost * 30) 2))
                  (Some (Py.round (avg_cost * 900) 2)))
  end.

(** A tracker on a given file: [__init__] runs [ensure_log_file]. *)
Definition init (st : store CostLog) : store CostLog := ensure_log_file st.

(** The arguments of one [log_api_call]. *)
Record call_args : Type := mkArgs {
  arg_now : string;
  arg_input : string;
  arg_output : string;
  arg_note : string;
  arg_meta : option (list (string * string))
}.

Definition log_call (c : call_args) (st : store CostLog)
  : result (CallRecord * store CostLog) :=
  log_api_call (arg_now c) (arg_input c) (arg_output c) (arg_note c)
               (arg_meta c) st.

(** A sequence of calls, with the records they return, oldest first. *)
Fixpoint log_calls (cs : list call_args) (st : store CostLog)
  : result (list CallRecord * store CostLog) :=
  match cs with
  | [] => Ok ([], st)
  | c :: rest =>
      r <- log_call c st ;;
      rs <- log_calls rest (snd r) ;;
      Ok (fst r :: fst rs, snd rs)
  end.

End CostTracker.

(** ** JSON values *)

Inductive value : Type :=
| VNone
| VBool (b : bool)
| VInt (n : Z)
| VFloat (x : float)
| VStr (s : string)
| VList (l : list value)
| VDict (d : list (string * value)).

(** A [dict] with string keys, in insertion order. *)
Definition dict : Type := list (string * value).

(** [key in d] *)
Fixpoint has_key (key : string) (d : dict) : bool :=
  match d with
  | [] => false
  | (k, _) :: rest => String.eqb k key || has_key key rest
  end.

(** [d.get(key)], [None] when the key is absent *)
Fixpoint lookup (key : string) (d : dict) : option value :=
  match d with
  | [] => None
  | (k, v) :: rest => if String.eqb k key then Some v else lookup key rest
  end.

(** [d[key] = v]: an existing key keeps its place, a new one goes last. *)
Fixpoint set_item (key : string) (v : value) (d : dict) : dict :=
  match d with
  | [] => [(key, v)]
  | (k, w) :: rest =>
      if String.eqb k key then (k, v) :: rest else (k, w) :: set_item key v rest
  end.

(** [x.get(key, default)] on any value: only a [dict] has [get]. *)
Definition py_get (x : value) (key : string) (default : value) : result value :=
  match x with
  | VDict d =>
      match lookup key d with
      | Some v => Ok v
      | None => Ok default
      end
  | _ => Raise AttributeError
  end.

(** [x.lower()] on any value: only a [str] has [lower]. *)
Definition py_lower (x : value) : result string :=
  match x with
  | VStr s => Ok (Py.lower s)
  | _ => Raise AttributeError
  end.

(** The one-character strings of a string. *)
Fixpoint chars (s : string) : list value :=
  match s with
  | EmptyString => []
  | String c s' => VStr (String c EmptyString) :: chars s'
  end.

(** [for item in x]: the items a value yields when iterated. *)
Definition iterate (x : value) : result (list value) :=
  match x with
  | VList l => Ok l
  | VStr s => Ok (chars s)
  | VDict d => Ok (map (fun kv => VStr (fst kv)) d)
  | _ => Raise TypeError
  end.

(** ** [ItemCache] *)

Module ItemCache.

Definition entry (category priority estimated_cost quantity : value) : value :=
  VDict [ ("category"%string, category);
          ("priority"%string, priority);
          ("estimated_cost"%string, estimated_cost);
          ("quantity"%string, quantity) ].

(** The items a new cache file starts with. *)
Definition common_items : dict :=
  [ ("milk"%string,
     entry (VStr "dairy") (VStr "high") (VStr "$4.99") (VStr "1 gallon"));
    ("bread"%string,
     entry (VStr "bakery") (VStr "high") (VStr "$3.49") (VStr "1 loaf"));
    ("eggs"%string,
     entry (VStr "dairy") (VStr "high") (VStr "$3.99") (VStr "1 dozen")) ].

Definition save_cache (cache_data : dict) (st : store dict) : store dict :=
  write_json cache_data st.

Definition ensure_cache_file (st : store dict) : store dict :=
  if negb (exists_ st) then save_cache common_items st else st.

(** The [try] reads and decodes; the bare [except] answers [{}]. *)
Definition load_cache (st : store dict) : dict :=
  match (f <- open_ st ;; json_load f) with
  | Ok data => data
  | Raise _ => []
  end.

(** The [for] loop of [get_item] over [cache.items()]. *)
Fixpoint get_item_loop (item_lower : string) (items : dict) : value :=
  match items with
  | [] => VNone
  | (cached_item, data) :: rest =>
      if Py.contains (Py.lower cached_item) item_lower
         || Py.contains item_lower (Py.lower cached_item)
      then data
      else get_item_loop item_lower rest
  end.

Definition get_item (item_name : string) (st : store dict) : value :=
  let cache := load_cache st in
  let item_lower := Py.lower item_name in
  get_item_loop item_lower cache.

Definition add_item (item_name : string) (item_data : value)
    (st : store dict) : store dict :=
  let cache := load_cache st in
  save_cache (set_item (Py.lower item_name) item_data cache) st.

(** [item.get(key)] once [item] is known to be a [dict]. *)
Definition field (item : value) (key : string) : result value :=
  py_get item key VNone.

(** The [for] loop of [extract_and_cache_items], on the local variables
    [cache] and [updated]. *)
Fixpoint absorb (items : list value) (cache : dict) (updated : bool)
  : result (dict * bool) :=
  match items with
  | [] => Ok (cache, updated)
  | item :: rest =>
      name <- py_get item "item" (VStr EmptyString) ;;
      item_name <- py_lower name ;;
      if negb (String.eqb item_name EmptyString) && negb (has_key item_name cache)
      then
        category <- field item "category" ;;
        priority <- field item "priority" ;;
        estimated_cost <- field item "estimated_cost" ;;
        quantity <- field item "quantity" ;;
        absorb rest
               (set_item item_name
                         (entry category priority estimated_cost quantity)
                         cache)
               true
      else absorb rest cache updated
  end.

(** The outcome of the call and the file after it: an exception leaves the
    file as it was, since [save_cache] is the last statement. *)
Definition extract_and_cache_items (shopping_list : dict) (st : store dict)
  : result unit * store dict :=
  if negb (has_key "shopping_list" shopping_list) then (Ok tt, st)
  else
    let cache := load_cache st in
    match lookup "shopping_list" shopping_list with
    | None => (Raise KeyError, st)
    | Some v =>
        match (items <- iterate v ;; absorb items cache false) with
        | Raise e => (Raise e, st)
        | Ok (cache', updated) =>
            (Ok tt, if updated then save_cache cache' st else st)
        end
    end.

(** A cache on a given file: [__init__] runs [ensure_cache_file]. *)
Definition init (st : store dict) : store dict := ensure_cache_file st.

End ItemCache.

(** ** [ClaudeProcessor._parse_response] *)

Module ClaudeProcessor.

Section Parser.

(** [json.loads]: the decoded value, or the exception it raises:
    [JSONDecodeError] for text that is not JSON, [RecursionError] for text
    nested deeper than the interpreter goes. *)
Variable json_loads : string -> result value.

Definition loads (s : string) : result value := json_loads s.

(** The dictionary of the [except] branch. *)
Definition parse_failure (response_text : string) : value :=
  VDict [ ("error"%string, VStr "Failed to parse response");
          ("raw_response"%string, VStr response_text) ].

(** The body of the [try]. *)
Definition parse_body (response_text : string) : result value :=
  let start_idx := Py.find "{"%char response_text in
  let end_idx := Py.rfind "}"%char response_text + 1 in
  if (start_idx =? -1) || (end_idx =? 0) then Raise ValueError
  else
    let json_str := Py.slice response_text start_idx end_idx in
    loads json_str.

(** [except (json.JSONDecodeError, ValueError)]: both are caught, anything
    else goes on to the caller. *)
Definition _parse_response (response_text : string) : result value :=
  match parse_body response_text with
  | Ok v => Ok v
  | Raise JSONDecodeError | Raise ValueError => Ok (parse_failure response_text)
  | Raise e => Raise e
  end.

End Parser.

End ClaudeProcessor.

(** ** What the specification says, in its own words *)

(** The bound of the interpreter on the length of a [str]
    ([sys.maxsize + 1]). *)
Definition max_len : Z := 2 ^ 63.

(** The texts of a call are strings the interpreter can hold. *)
Definition fits (c : CostTracker.call_args) : Prop :=
  Py.len (CostTracker.arg_input c) < max_len
  /\ Py.len (CostTracker.arg_output c) < max_len.

(** The cost of token counts at three and fifteen dollars per million. *)
Definition cost_formula (input_tokens output_tokens : Z) : float :=
  (Py.quotient input_tokens 1000000 * 3.0
   + Py.quotient output_tokens 1000000 * 15.0)%float.

(** The same with the two divisions as Python evaluates them. *)
Definition cost_expression (input_tokens output_tokens : Z) : result float :=
  i <- Py.int_truediv input_tokens 1000000 ;;
  o <- Py.int_truediv output_tokens 1000000 ;;
  Ok (i * 3.0 + o * 15.0)%float.

(** The unrounded cost of a call. *)
Definition cost_of (c : CostTracker.call_args) : float :=
  cost_formula (CostTracker.estimate_tokens (CostTracker.arg_input c))
               (CostTracker.estimate_tokens (CostTracker.arg_output c)).

(** The record of a call. *)
Definition record_of (c : CostTracker.call_args) : CostTracker.CallRecord :=
  let i := CostTracker.estimate_tokens (CostTracker.arg_input c) in
  let o := CostTracker.estimate_tokens (CostTracker.arg_output c) in
  CostTracker.mkCall (CostTracker.arg_now c) (CostTracker.arg_note c)
    i o (i + o) (Py.round (cost_of c) 6)
    (CostTracker.or_empty (CostTracker.arg_meta c)).

(** A running sum of floats, from [start], in the order of the list. *)
Definition fsum (start : float) (xs : list float) : float :=
  fold_left PrimFloat.add xs start.

(** A new tracker on a file that does not exist yet. *)
Definition fresh_tracker : store CostTracker.CostLog :=
  CostTracker.init (mkStore Absent 0).

(** One call with two one-character texts. *)
Definition tiny_call : CostTracker.call_args :=
  CostTracker.mkArgs "2025-01-01T00:00:00" "a" "b" "unknown" None.

(** The tracker after that call. *)
Definition one_call_tracker : store CostTracker.CostLog :=
  match CostTracker.log_call tiny_call fresh_tracker with
  | Ok (_, st) => st
  | Raise _ => fresh_tracker
  end.

(** [get_stats] as the specification words it, for a log and the statistics
    returned for it. *)
Definition stats_as_specified (log : CostTracker.CostLog)
    (s : CostTracker.Stats) : Prop :=
  CostTracker.stats_total_calls s = CostTracker.total_calls log
  /\ CostTracker.stats_total_cost s = Py.round (CostTracker.total_cost log) 4
  /\ (CostTracker.total_calls log = 0 ->
      CostTracker.average_cost s = 0%float)
  /\ (CostTracker.total_calls log <> 0 ->
      Py.float_div_int (CostTracker.total_cost log)
                       (CostTracker.total_calls log)
      = Ok (CostTracker.average_cost s))
  /\ CostTracker.recent_calls s = Py.last_n 10 (CostTracker.calls log)
  /\ CostTracker.daily_estimate s
     = Some (CostTracker.average_cost s * 30)%float
  /\ CostTracker.monthly_estimate s
     = Some (CostTracker.average_cost s * 900)%float.

(** The log after one more call. *)
Definition after_call (log : CostTracker.CostLog) (c : CostTracker.call_args)
  : CostTracker.CostLog :=
  CostTracker.mkLog
    (CostTracker.total_calls log + 1)
    (CostTracker.total_cost log + cost_of c)
    (Py.last_n 100 (CostTracker.calls log ++ [record_of c])).

(** [sub] occurs in [s]. *)
Definition is_substring (sub s : string) : Prop :=
  exists pre post : string, s = (pre ++ sub ++ post)%string.

(** The fuzzy match of the cache: containment in either direction. *)
Definition key_matches (query key : string) : Prop :=
  is_substring key query \/ is_substring query key.

(** Every key of the cache is in lower case, as the data model has it. *)
Definition keys_lower (cache : dict) : Prop :=
  Forall (fun kv => Py.lower (fst kv) = fst kv) cache.

(** A new cache on a file that does not exist yet. *)
Definition fresh_cache : store dict := ItemCache.init (mkStore Absent 0).

(** The normalized name of a list item: its ["item"] field in lower case,
    the empty string when the field is missing. *)
Definition name_of (item : value) : result string :=
  name <- py_get item "item" (VStr EmptyString) ;;
  py_lower name.

(** A field of an item, [None] when it is missing. *)
Definition field_or_none (key : string) (item : value) : value :=
  match item with
  | VDict d =>
      match lookup key d with
      | Some v => v
      | None => VNone
      end
  | _ => VNone
  end.

(** The cache entry built from a list item. *)
Definition entry_of (item : value) : value :=
  ItemCache.entry (field_or_none "category" item)
                  (field_or_none "priority" item)
                  (field_or_none "estimated_cost" item)
                  (field_or_none "quantity" item).

(** The item is the first of the list with the name [k]. *)
Definition first_named (k : string) (item : value) (items : list value) : Prop :=
  exists pre post : list value,
    items = pre ++ item :: post
    /\ name_of item = Ok k
    /\ Forall (fun it => name_of it <> Ok k) pre.

(** What [added] must be when [items] are absorbed into [cache]: entries
    under new, non-empty, distinct names, each built from the first item of
    that name, and afterwards every non-empty name of the list is a key. *)
Definition absorbed (items : list value) (cache added : dict) : Prop :=
  Forall (fun kv =>
            fst kv <> EmptyString
            /\ has_key (fst kv) cache = false
            /\ exists item, first_named (fst kv) item items
                            /\ snd kv = entry_of item) added
  /\ NoDup (map fst added)
  /\ Forall (fun it =>
               forall n, name_of it = Ok n -> n <> EmptyString ->
                         has_key n (cache ++ added) = true) items.

(** A payload with a missing name, an empty name and a proper item. *)
Definition sample_payload : dict :=
  [ ("shopping_list"%string,
     VList [ VDict [ ("category"%string, VStr "misc") ];
             VDict [ ("item"%string, VStr EmptyString);
                     ("category"%string, VStr "misc") ];
             VDict [ ("item"%string, VStr "Oat Milk");
                     ("category"%string, VStr "dairy");
                     ("quantity"%string, VStr "1 carton") ];
             VDict [ ("item"%string, VStr "Tofu");
                     ("priority"%string, VStr "low") ] ]) ].

(** A payload whose only item has no name. *)
Definition nameless_payload : dict :=
  [ ("shopping_list"%string,
     VList [ VDict [ ("category"%string, VStr "misc") ] ]) ].

(** Every item of the list has a name, possibly empty: iterating the list
    raises nothing. *)
Definition all_named (items : list value) : Prop :=
  Forall (fun it => exists n, name_of it = Ok n) items.

(** The insertion rule as the specification words it: after the call, the
    name of every list item that was not a cache key is one. *)
Definition inserts_every_new_name (shopping_list : dict) (st : store dict)
  : Prop :=
  forall (items : list value) (item : value) (n : string),
    lookup "shopping_list" shopping_list = Some (VList items) ->
    In item items ->
    name_of item = Ok n ->
    has_key n (ItemCache.load_cache st) = false ->
    has_key n (ItemCache.load_cache
                 (snd (ItemCache.extract_and_cache_items shopping_list st)))
    = true.

(** An item the loop skips: no name, an empty name, or a name that is a key
    of the cache already. *)
Definition skipped (cache : dict) (item : value) : Prop :=
  exists d, item = VDict d
            /\ (lookup "item" d = None
                \/ exists s, lookup "item" d = Some (VStr s)
                             /\ (s = EmptyString
                                 \/ has_key (Py.lower s) cache = true)).

(** The character [c] occurs in [s]. *)
Definition occurs (c : ascii) (s : string) : Prop :=
  exists pre post : string, s = (pre ++ String c post)%string.

(** What the parser makes of a slice: the decoded value; the failure value
    that carries the whole text when the decoder rejects the slice; the
    exception of the decoder when it is of another kind. *)
Definition answer_for_slice (json_loads : string -> result value)
    (response_text json_str : string) : result value :=
  match json_loads json_str with
  | Ok v => Ok v
  | Raise JSONDecodeError | Raise ValueError =>
      Ok (ClaudeProcessor.parse_failure response_text)
  | Raise e => Raise e
  end.

(** The decoder rejects text with [JSONDecodeError] or another [ValueError]
    and raises nothing else. *)
Definition only_rejects (json_loads : string -> result value) : Prop :=
  forall (s : string) (e : exn),
    json_loads s = Raise e -> e = JSONDecodeError \/ e = ValueError.

(** A double quote. *)
Definition dquote : string := String (ascii_of_nat 34) EmptyString.

(** The object [{"a":1}] as text. *)
Definition a_is_1 : string :=
  ("{" ++ dquote ++ "a" ++ dquote ++ ":1}")%string.

(** A decoder that knows the empty object and [{"a":1}] only. *)
Definition toy_loads (s : string) : result value :=
  if String.eqb s "{}" then Ok (VDict [])
  else if String.eqb s a_is_1 then Ok (VDict [("a"%string, VInt 1)])
  else Raise JSONDecodeError.

(** The deepest nesting of brackets and braces in a text. *)
Fixpoint nesting (s : string) (level deepest : nat) : nat :=
  match s with
  | EmptyString => deepest
  | String c s' =>
      if Ascii.eqb c "[" || Ascii.eqb c "{"
      then nesting s' (S level) (Nat.max deepest (S level))
      else if Ascii.eqb c "]" || Ascii.eqb c "}"
           then nesting s' (Nat.pred level) deepest
           else nesting s' level deepest
  end.

(** The toy decoder with a limit on the nesting, as the interpreter has
    one. *)
Definition limited_loads (limit : nat) (s : string) : result value :=
  if (limit <? nesting s 0 0)%nat then Raise RecursionError else toy_loads s.

(** [depth] opening brackets, then as many closing ones. *)
Fixpoint nested (depth : nat) : string :=
  match depth with
  | O => EmptyString
  | S n => ("[" ++ nested n ++ "]")%string
  end.

(** ** [CostTracker.print_stats] *)

Module Report.

(** [str(n)] for an [int] *)
Definition str_int (n : Z) : string := NilZero.string_of_int (Z.to_int n).

(** The integer nearest to [m * 2^e * 10^digits], ties to the even one. *)
Definition scaled_nearest (m : positive) (e digits : Z) : Z :=
  let p := 10 ^ digits in
  let num := if 0 <=? e then Zpos m * 2 ^ e * p else Zpos m * p in
  let den := if 0 <=? e then 1 else 2 ^ (- e) in
  let q := num / den in
  let r := num mod den in
  if 2 * r <? den then q
  else if den <? 2 * r then q + 1
  else if Z.even q then q else q + 1.

(** [s.zfill(width)] on a string of digits *)
Fixpoint zfill (width : nat) (s : string) : string :=
  if (String.length s <? width)%nat
  then match width with
       | O => s
       | S w => String "0" (zfill w s)
       end
  else s.

(** [format(x, ".<digits>f")] for [digits >= 1]: the sign, the integer part,
    a point and [digits] decimals of the decimal nearest to [x]. *)
Definition format_f (x : float) (digits : Z) : string :=
  match Prim2SF x with
  | S754_nan => "nan"
  | S754_infinity s => if s then "-inf" else "inf"
  | S754_zero s =>
      (if s then "-" else EmptyString) ++ "0."
      ++ zfill (Z.to_nat digits) EmptyString
  | S754_finite s m e =>
      let n := scaled_nearest m e digits in
      let p := 10 ^ digits in
      (if s then "-" else EmptyString) ++ str_int (n / p) ++ "."
      ++ zfill (Z.to_nat digits) (str_int (n mod p))
  end%string.

Section Glyphs.

(** The two characters of the report outside the range of [string]: the
    money bag of the title and the arrow between the token counts. *)
Variable money_bag arrow : string.

(** The line of one recent call. *)
Definition call_line (call : CostTracker.CallRecord) : string :=
  ("  " ++ Py.slice (CostTracker.timestamp call) 0 19
   ++ " | $" ++ format_f (CostTracker.cost call) 4
   ++ " | " ++ str_int (CostTracker.input_tokens call)
   ++ arrow ++ str_int (CostTracker.output_tokens call) ++ " tokens")%string.

(** What is printed, one entry per [print], and how the call ends: reading
    a key that the dictionary of [get_stats] lacks raises [KeyError]. *)
Definition print_stats (st : store CostTracker.CostLog)
  : list string * result unit :=
  match CostTracker.get_stats st with
  | Raise e => ([], Raise e)
  | Ok stats =>
      let out :=
        [ (money_bag ++ " Cost Tracking Summary")%string;
          "=============================="%string;
          ("Total API calls: "
           ++ str_int (CostTracker.stats_total_calls stats))%string;
          ("Total cost: $"
           ++ format_f (CostTracker.stats_total_cost stats) 4)%string;
          ("Average cost per call: $"
           ++ format_f (CostTracker.average_cost stats) 4)%string ] in
      match CostTracker.daily_estimate stats with
      | None => (out, Raise KeyError)
      | Some daily =>
          let out :=
            out ++ [ ("Est. daily cost (30 calls): $"
                      ++ format_f daily 2)%string ] in
          match CostTracker.monthly_estimate stats with
          | None => (out, Raise KeyError)
          | Some monthly =>
              let out :=
                out ++ [ ("Est. monthly cost: $"
                          ++ format_f monthly 2)%string ] in
              match CostTracker.recent_calls stats with
              | [] => (out, Ok tt)
              | _ :: _ =>
                  (out
                   ++ [ String (ascii_of_nat 10) "Recent calls:" ]
                   ++ map call_line
                          (Py.last_n 5 (CostTracker.recent_calls stats)),
                   Ok tt)
              end
          end
      end
  end.

End Glyphs.

End Report.

(** ** [cost_optimizer.py] *)

Module CostOptimizer.

Definition estimate_tokens (text : string) : Z := Py.len text / 4.

End CostOptimizer.

(** The counter and the retained records of a log agree: the counter is not
    negative and the log retains that many records, up to 100. *)
Definition consistent (log : CostTracker.CostLog) : Prop :=
  0 <= CostTracker.total_calls log
  /\ List.length (CostTracker.calls log)
     = Nat.min (Z.to_nat (CostTracker.total_calls log)) 100.

(** A log document with one record and the counter at zero. *)
Definition zeroed_counter : store CostTracker.CostLog :=
  mkStore (Holds (CostTracker.mkLog 0 0%float [record_of tiny_call])) 1.

(** ** Text *)

Module Text.

(** A line feed. *)
Definition nl : string := String (ascii_of_nat 10) EmptyString.

(** [sep.join(parts)] *)
Fixpoint join (sep : string) (parts : list string) : string :=
  match parts with
  | [] => EmptyString
  | [p] => p
  | p :: rest => (p ++ sep ++ join sep rest)%string
  end.

End Text.

(** ** The rest of [ClaudeProcessor] *)

Module Claude.

(** A note as the callers build it: an identifier, a text, the names of its
    images and its links, each of which may be missing. *)
Record Note : Type := mkNote {
  id : option string;
  text : option string;
  images : option (list string);
  links : option (list string)
}.

(** The instruction sent with every note, line by line. *)
Definition system_prompt : string :=
  Text.join Text.nl
    [ "Convert this note to a shopping list JSON:"%string;
      EmptyString;
      "Required fields per item:"%string;
      "- item: specific name"%string;
      "- category: grocery/household/clothing/etc"%string;
      "- priority: high/medium/low"%string;
      "- estimated_cost: realistic price"%string;
      "- quantity: amount needed"%string;
      EmptyString;
      "Also include:"%string;
      "- total_estimated_cost"%string;
      "- categories (array)"%string;
      "- recommended_stores (array)"%string;
      EmptyString;
      "Focus on actionable items only."%string ].

Definition _format_note_content (note_content : Note) : string :=
  let formatted_parts : list string := [] in
  let formatted_parts :=
    match text note_content with
    | Some (String c t) =>
        formatted_parts
        ++ [ ("Text content:" ++ Text.nl ++ String c t)%string ]
    | _ => formatted_parts
    end in
  let formatted_parts :=
    match images note_content with
    | Some (i :: l) =>
        formatted_parts
        ++ [ ("Contains "
              ++ Report.str_int (Z.of_nat (List.length (i :: l)))
              ++ " images")%string ]
    | _ => formatted_parts
    end in
  let formatted_parts :=
    match links note_content with
    | Some (k :: l) =>
        (formatted_parts ++ [ "Links found:"%string ])
        ++ map (fun link => ("- " ++ link)%string) (k :: l)
    | _ => formatted_parts
    end in
  Text.join (Text.nl ++ Text.nl) formatted_parts.

(** [x == s] for a string [s] *)
Definition is_str (x : value) (s : string) : bool :=
  match x with
  | VStr t => String.eqb t s
  | _ => false
  end.

(** The body of the loop of [analyze_item_timing]: the suggestion for one
    item. *)
Definition suggest (item : value) : result value :=
  name <- py_get item "item" VNone ;;
  let suggestion : dict :=
    [ ("item"%string, name);
      ("suggested_timing"%string, VStr "this_week");
      ("reason"%string, VStr "Standard timing") ] in
  priority <- py_get item "priority" VNone ;;
  if is_str priority "high" then
    Ok (VDict (set_item "reason" (VStr "High priority item")
                 (set_item "suggested_timing" (VStr "today") suggestion)))
  else if is_str priority "low" then
    Ok (VDict (set_item "reason" (VStr "Low priority, can wait")
                 (set_item "suggested_timing" (VStr "next_week") suggestion)))
  else Ok (VDict suggestion).

(** The loop, appending to [timing_suggestions]. *)
Fixpoint suggest_all (items : list value) (timing_suggestions : list value)
  : result (list value) :=
  match items with
  | [] => Ok timing_suggestions
  | item :: rest =>
      suggestion <- suggest item ;;
      suggest_all rest (timing_suggestions ++ [suggestion])
  end.

Definition analyze_item_timing (items : value) : result value :=
  l <- iterate items ;;
  timing_suggestions <- suggest_all l [] ;;
  Ok (VDict
        [ ("timing_analysis"%string, VList timing_suggestions);
          ("optimal_shopping_day"%string, VStr "Saturday");
          ("note"%string,
           VStr "Basic timing analysis - Phase 2 will add price and calendar integration") ]).

Section Api.

(** [json.loads], as in [_parse_response]. *)
Variable json_loads : string -> result value.

(** The call to the model with the system and the user prompt: the text of
    the reply, or the message of the exception it raised. *)
Variable api : string -> string -> string + string.

(** [str(e)] for an exception. *)
Variable str_exn : exn -> string.

(** [self.model] *)
Variable model : string.

(** The dictionary of the [except] branch. *)
Definition failed (message : string) : value :=
  VDict [ ("error"%string,
           VStr ("Failed to process note: " ++ message)) ].

(** [now] is the time of the call to the cost tracker; the store is the
    cost log of the processor. *)
Definition process_note_to_shopping_list (now : string) (note_content : Note)
    (st : store CostTracker.CostLog) : value * store CostTracker.CostLog :=
  let user_prompt := _format_note_content note_content in
  match api system_prompt user_prompt with
  | inr message => (failed message, st)
  | inl response_text =>
      let full_input :=
        (system_prompt ++ (Text.nl ++ Text.nl) ++ user_prompt)%string in
      let note_id :=
        match id note_content with
        | Some i => i
        | None => "unknown"%string
        end in
      match CostTracker.log_api_call now full_input response_text note_id
              (Some [ ("model"%string, model) ]) st with
      | Raise e => (failed (str_exn e), st)
      | Ok (_, st') =>
          match ClaudeProcessor._parse_response json_loads response_text with
          | Ok v => (v, st')
          | Raise e => (failed (str_exn e), st')
          end
      end
  end.

End Api.

End Claude.

(** ** [NotesProcessor] *)

Module NotesProcessor.

(** The text of the mock note, line by line. *)
Definition mock_text : string :=
  Text.join Text.nl
    [ "Need to get:"%string;
      "- Organic milk (2%)"%string;
      "- Whole grain bread"%string;
      "- Free-range eggs (dozen)"%string;
      "- Bananas"%string;
      "- Greek yogurt"%string;
      "- Olive oil (extra virgin)"%string;
      "- Paper towels"%string;
      "- Dish soap"%string;
      "- Light bulbs (LED, 60W equivalent)"%string ].

(** The mock note; its dates play no part in the processing. *)
Definition fetch_note_from_mcp (note_id : string) : option Claude.Note :=
  Some (Claude.mkNote (Some note_id) (Some mock_text) (Some []) (Some [])).

(** [bool(x)] *)
Definition truthy (x : value) : bool :=
  match x with
  | VNone => false
  | VBool b => b
  | VInt n => negb (n =? 0)
  | VFloat f => negb (PrimFloat.eqb f 0)
  | VStr s => negb (String.eqb s EmptyString)
  | VList l => match l with [] => false | _ :: _ => true end
  | VDict d => match d with [] => false | _ :: _ => true end
  end.

(** [key in x] for a string [key] *)
Definition py_in (key : string) (x : value) : result bool :=
  match x with
  | VDict d => Ok (has_key key d)
  | VList l => Ok (existsb (fun v => Claude.is_str v key) l)
  | VStr s => Ok (Py.contains key s)
  | _ => Raise TypeError
  end.

(** [x[key] = v] *)
Definition py_set (x : value) (key : string) (v : value) : result value :=
  match x with
  | VDict d => Ok (VDict (set_item key v d))
  | _ => Raise TypeError
  end.

Section Pipeline.

Variable json_loads : string -> result value.
Variable api : string -> string -> string + string.
Variable str_exn : exn -> string.
Variable model : string.

(** The note source: [fetch_note_from_mcp], or what a caller puts in its
    place; [None] stands for an empty result. *)
Variable fetch : string -> option Claude.Note.

(** [now] is the time of the call to the cost tracker, [processed_at] the
    one of the metadata. *)
Definition process_note (now processed_at : string) (note_id : string)
    (st : store CostTracker.CostLog)
  : result value * store CostTracker.CostLog :=
  match fetch note_id with
  | None =>
      (Ok (VDict [ ("error"%string,
                    VStr ("Could not fetch note: " ++ note_id)) ]), st)
  | Some note_content =>
      let (shopping_list, st') :=
        Claude.process_note_to_shopping_list json_loads api str_exn model
          now note_content st in
      (has_error <- py_in "error" shopping_list ;;
       if has_error then Ok shopping_list
       else
         items <- py_get shopping_list "shopping_list" VNone ;;
         shopping_list <-
           (if truthy items then
              timing_analysis <- Claude.analyze_item_timing items ;;
              py_set shopping_list "timing" timing_analysis
            else Ok shopping_list) ;;
         py_set shopping_list "metadata"
           (VDict [ ("source_note_id"%string, VStr note_id);
                    ("processed_at"%string, VStr processed_at);
                    ("version"%string, VStr "1.0");
                    ("phase"%string, VStr "1 - Basic Pipeline") ]),
       st')
  end.

End Pipeline.

End NotesProcessor.

(** A field of a note holds nothing: it is missing or empty. *)
Definition blank {A : Type} (field : option (list A)) : Prop :=
  field = None \/ field = Some [].

(** The same for the text. *)
Definition blank_text (field : option string) : Prop :=
  field = None \/ field = Some EmptyString.

(** The timing and the reason that go with a priority. *)
Definition timing_for (priority : value) : string * string :=
  (if Claude.is_str priority "high" then ("today", "High priority item")
   else if Claude.is_str priority "low"
        then ("next_week", "Low priority, can wait")
        else ("this_week", "Standard timing"))%string.

(** The suggestion for an item that is a dictionary. *)
Definition suggestion_of (item : value) : value :=
  VDict [ ("item"%string, field_or_none "item" item);
          ("suggested_timing"%string,
           VStr (fst (timing_for (field_or_none "priority" item))));
          ("reason"%string,
           VStr (snd (timing_for (field_or_none "priority" item)))) ].

(** The value is a dictionary. *)
Definition is_dict (x : value) : Prop := exists d, x = VDict d.

(** The note that goes with the timing analysis. *)
Definition timing_note : string :=
  "Basic timing analysis - Phase 2 will add price and calendar integration".

(** The note identifier that is logged. *)
Definition logged_id (note_content : Claude.Note) : string :=
  match Claude.id note_content with
  | Some i => i
  | None => "unknown"%string
  end.

(** The call to the cost tracker that the processing of a note makes once
    the model has replied. *)
Definition pipeline_call (model now : string) (note_content : Claude.Note)
    (reply : string) : CostTracker.call_args :=
  CostTracker.mkArgs now
    (Claude.system_prompt ++ (Text.nl ++ Text.nl)
     ++ Claude._format_note_content note_content)%string
    reply (logged_id note_content) (Some [ ("model"%string, model) ]).

(** The metadata that [process_note] attaches. *)
Definition note_metadata (note_id processed_at : string) : value :=
  VDict [ ("source_note_id"%string, VStr note_id);
          ("processed_at"%string, VStr processed_at);
          ("version"%string, VStr "1.0");
          ("phase"%string, VStr "1 - Basic Pipeline") ].

(** A model that always replies [{}] and one that is never reached. *)
Definition api_empty_object (system user : string) : string + string :=
  inl "{}"%string.

Definition api_down (system user : string) : string + string :=
  inr "Connection error."%string.

(** Some text for an exception. *)
Definition some_str_exn (e : exn) : string := "error"%string.

(** ** [NotesProcessor._format_text] *)

Module TextOutput.

(** [x[key]] for a string [key] *)
Definition subscript (x : value) (key : string) : result value :=
  match x with
  | VDict d =>
      match lookup key d with
      | Some v => Ok v
      | None => Raise KeyError
      end
  | _ => Raise TypeError
  end.

Section Str.

(** [str(x)], as the f-strings apply it to the fields of an item. *)
Variable py_str : value -> string.

(** The body of the loop: the line of one item. *)
Definition item_line (item : value) : result string :=
  priority <- py_get item "priority" (VStr "medium") ;;
  cost <- py_get item "estimated_cost" (VStr EmptyString) ;;
  name <- subscript item "item" ;;
  Ok ("[ ] " ++ py_str name ++ " (" ++ py_str priority ++ ") - "
      ++ py_str cost)%string.

(** The loop, appending to [lines]. *)
Fixpoint item_lines (items : list value) (lines : list string)
  : result (list string) :=
  match items with
  | [] => Ok lines
  | item :: rest =>
      line <- item_line item ;;
      item_lines rest (lines ++ [line])
  end.

Definition _format_text (shopping_list : value) : result string :=
  let lines :=
    [ "SHOPPING LIST"%string;
      "========================================"%string;
      EmptyString ] in
  items <- py_get shopping_list "shopping_list" (VList []) ;;
  l <- iterate items ;;
  lines <- item_lines l lines ;;
  total <- py_get shopping_list "total_estimated_cost" (VStr "N/A") ;;
  Ok (Text.join Text.nl
        (lines ++ [ EmptyString; ("Total: " ++ py_str total)%string ])).

End Str.

End TextOutput.

(** The item is a dictionary with a name. *)
Definition has_name (item : value) : Prop :=
  exists d name, item = VDict d /\ lookup "item" d = Some name.

(** The item is a dictionary without a name. *)
Definition nameless (item : value) : Prop :=
  exists d, item = VDict d /\ lookup "item" d = None.

(** A field of a dictionary, with a default. *)
Definition field_or (key : string) (default : value) (item : value) : value :=
  match item with
  | VDict d =>
      match lookup key d with
      | Some v => v
      | None => default
      end
  | _ => default
  end.

(** The line of an item in the text output. *)
Definition line_of (py_str : value -> string) (item : value) : string :=
  ("[ ] " ++ py_str (field_or "item" VNone item)
   ++ " (" ++ py_str (field_or "priority" (VStr "medium") item)
   ++ ") - " ++ py_str (field_or "estimated_cost" (VStr EmptyString) item))%string.

(** [str] on strings, for the examples. *)
Definition str_of_text (x : value) : string :=
  match x with
  | VStr s => s
  | _ => "?"%string
  end.

(** * Properties *)

(** ** The runtime model on known values *)

Example round_values :
  Py.round 2.675 2 = 2.67%float
  /\ Py.round 0.125 2 = 0.12%float
  /\ Py.round 1.0000005 6 = 1.000001%float
  /\ Py.round 0.0000005 6 = 0%float
  /\ Py.round (-0.0000001) 6 = neg_zero
  /\ Py.round 1e300 6 = 1e300%float
  /\ Py.round infinity 4 = infinity
  /\ Py.round nan 4 = nan.
Proof. repeat split; vm_compute; reflexivity. Qed.

Example division_values :
  Py.int_truediv 1 3 = Ok 0.3333333333333333%float
  /\ Py.int_truediv 0 (-5) = Ok neg_zero
  /\ Py.int_truediv 7 0 = Raise ZeroDivisionError
  /\ Py.int_truediv (10 ^ 400) 1000000 = Raise OverflowError
  /\ Py.int_truediv (Py.float_overflow * 1000000 - 1) 1000000
     = Ok 1.7976931348623157e+308%float
  /\ Py.float_div_int 1.5 0 = Raise ZeroDivisionError
  /\ Py.float_div_int 1.5 (10 ^ 400) = Raise OverflowError
  /\ Py.float_div_int 1.5 4 = Ok 0.375%float.
Proof. repeat split; vm_compute; reflexivity. Qed.

Example string_values :
  Py.find "{" "a{b{c" = 1
  /\ Py.rfind "}" "a}b}c" = 3
  /\ Py.find "{" "abc" = -1
  /\ Py.rfind "}" "abc" = -1
  /\ Py.slice "hello" 1 3 = "el"%string
  /\ Py.slice "hello" 3 1 = EmptyString
  /\ Py.slice "hello" 2 9 = "llo"%string
  /\ Py.contains EmptyString "abc" = true
  /\ Py.contains "milk" "organic milk" = true
  /\ Py.contains "organic milk" "milk" = false
  /\ Py.lower "Oat MILK" = "oat milk"%string
  /\ Py.last_n 2 [1; 2; 3] = [2; 3]
  /\ Py.last_n 5 [1; 2; 3] = [1; 2; 3].
Proof. repeat split; vm_compute; reflexivity. Qed.

(** ** Lists and floats *)

Lemma last_n_short {A : Type} (n : nat) (l : list A) :
  (List.length l <= n)%nat -> Py.last_n n l = l.
Proof.
  intros H. unfold Py.last_n.
  replace (List.length l - n)%nat with 0%nat by lia. reflexivity.
Qed.

Lemma last_n_length {A : Type} (n : nat) (l : list A) :
  List.length (Py.last_n n l) = Nat.min (List.length l) n.
Proof.
  unfold Py.last_n. rewrite length_skipn. lia.
Qed.

Lemma last_n_absorb {A : Type} (n : nat) (l r : list A) :
  Py.last_n n (Py.last_n n l ++ r) = Py.last_n n (l ++ r).
Proof.
  destruct (Nat.le_gt_cases (List.length l) n) as [Hle | Hgt].
  - rewrite (last_n_short n l Hle). reflexivity.
  - unfold Py.last_n at 1 3.
    rewrite !length_app, last_n_length.
    replace (Nat.min (List.length l) n + List.length r - n)%nat
      with (List.length r) by lia.
    replace (List.length l + List.length r - n)%nat
      with (List.length r + (List.length l - n))%nat by lia.
    rewrite <- skipn_skipn. f_equal.
    unfold Py.last_n. rewrite skipn_app.
    replace (List.length l - n - List.length l)%nat with 0%nat by lia.
    reflexivity.
Qed.

Lemma float_neq (x y : float) : Prim2SF x <> Prim2SF y -> x <> y.
Proof. intros H E. apply H. now rewrite E. Qed.

Lemma max_len_below_overflow : max_len < Py.float_overflow.
Proof. vm_compute. reflexivity. Qed.

Lemma float_overflow_pos : 0 < Py.float_overflow.
Proof. vm_compute. reflexivity. Qed.

Lemma int_truediv_million (a : Z) :
  0 <= a < 1000000 * Py.float_overflow ->
  Py.int_truediv a 1000000 = Ok (Py.quotient a 1000000).
Proof.
  intros [H0 H1]. unfold Py.int_truediv.
  change (1000000 =? 0) with false. cbv iota.
  change (Z.abs 1000000) with 1000000.
  rewrite (Z.abs_eq a H0).
  destruct (Z.leb_spec (Py.float_overflow * 1000000) a) as [H | H].
  - lia.
  - reflexivity.
Qed.

Lemma len_nonneg (s : string) : 0 <= Py.len s.
Proof. unfold Py.len. lia. Qed.

Lemma estimate_tokens_bounds (s : string) :
  1 <= CostTracker.estimate_tokens s
  /\ (Py.len s < max_len -> CostTracker.estimate_tokens s < max_len).
Proof.
  unfold CostTracker.estimate_tokens. split; [lia |].
  intros H. pose proof (len_nonneg s) as H0.
  assert (Py.len s / 4 <= Py.len s) by (apply Z.div_le_upper_bound; lia).
  assert (1 < max_len) by (vm_compute; reflexivity).
  lia.
Qed.

Lemma calculate_cost_in_range (i o : Z) :
  0 <= i < 1000000 * Py.float_overflow ->
  0 <= o < 1000000 * Py.float_overflow ->
  CostTracker.calculate_cost i o = Ok (cost_formula i o).
Proof.
  intros Hi Ho. unfold CostTracker.calculate_cost.
  rewrite (int_truediv_million i Hi), (int_truediv_million o Ho).
  reflexivity.
Qed.

Lemma calculate_cost_of_call (c : CostTracker.call_args) :
  fits c ->
  CostTracker.calculate_cost
    (CostTracker.estimate_tokens (CostTracker.arg_input c))
    (CostTracker.estimate_tokens (CostTracker.arg_output c))
  = Ok (cost_of c).
Proof.
  intros [Hi Ho]. apply calculate_cost_in_range.
  - destruct (estimate_tokens_bounds (CostTracker.arg_input c)) as [H1 H2].
    specialize (H2 Hi). pose proof max_len_below_overflow. lia.
  - destruct (estimate_tokens_bounds (CostTracker.arg_output c)) as [H1 H2].
    specialize (H2 Ho). pose proof max_len_below_overflow. lia.
Qed.

(** ** Token estimate and cost *)

(** C7: for every string [s], [estimate_tokens s] is [max(1, len(s) // 4)]
    with floor division, a plain integer (no error case), at least 1, and 1
    on the empty string. *)
Theorem estimate_tokens_is_max_1_quarter (s : string) :
  CostTracker.estimate_tokens s
  = Z.of_nat (Nat.max 1 (String.length s / 4))
  /\ CostTracker.estimate_tokens s = Z.max 1 (Py.len s / 4)
  /\ 4 * (Py.len s / 4) <= Py.len s < 4 * (Py.len s / 4) + 4
  /\ 1 <= CostTracker.estimate_tokens s
  /\ CostTracker.estimate_tokens EmptyString = 1.
Proof.
  repeat split.
  - unfold CostTracker.estimate_tokens, Py.len.
    rewrite Nat2Z.inj_max, Nat2Z.inj_div. reflexivity.
  - pose proof (Z.mul_div_le (Py.len s) 4). lia.
  - pose proof (Z.mul_succ_div_gt (Py.len s) 4). lia.
  - unfold CostTracker.estimate_tokens. lia.
Qed.

(** C8: for all non-negative token counts, [calculate_cost] is
    [(input_tokens / 1e6) * 3.0 + (output_tokens / 1e6) * 15.0] at the
    default prices, evaluated as Python does and not rounded; wherever the
    two quotients are floats the result is that sum of products, and
    [(1000, 2000)] gives [0.003 + 0.03 = 0.033]. *)
Theorem calculate_cost_is_formula (i o : Z) :
  0 <= i -> 0 <= o ->
  CostTracker.calculate_cost i o = cost_expression i o
  /\ (i < 1000000 * Py.float_overflow -> o < 1000000 * Py.float_overflow ->
      CostTracker.calculate_cost i o
      = Ok (Py.quotient i 1000000 * 3.0 + Py.quotient o 1000000 * 15.0)%float)
  /\ CostTracker.calculate_cost 1000 2000 = Ok 0.033%float
  /\ (Py.quotient 1000 1000000 * 3.0 = 0.003
      /\ Py.quotient 2000 1000000 * 15.0 = 0.03
      /\ 0.003 + 0.03 = 0.033)%float
  /\ (CostTracker.calculate_cost 1 1 = Ok 1.7999999999999997e-05%float
      /\ Py.round 1.7999999999999997e-05 6 = 1.8e-05%float
      /\ 1.7999999999999997e-05%float <> 1.8e-05%float).
Proof.
  intros Hi Ho. split; [| split; [| split; [| split]]].
  - unfold CostTracker.calculate_cost, cost_expression.
    destruct (Py.int_truediv i 1000000); [| reflexivity].
    destruct (Py.int_truediv o 1000000); reflexivity.
  - intros Hi' Ho'. now apply calculate_cost_in_range.
  - vm_compute. reflexivity.
  - repeat split; vm_compute; reflexivity.
  - repeat split; try (vm_compute; reflexivity).
    apply float_neq. vm_compute. discriminate.
Qed.

Lemma calculate_cost_is_formula_witness :
  0 <= 250 /\ 0 <= 40
  /\ CostTracker.calculate_cost 250 40 = cost_expression 250 40.
Proof.
  assert (H250 : 0 <= 250) by lia.
  assert (H40 : 0 <= 40) by lia.
  exact (conj H250 (conj H40 (proj1 (calculate_cost_is_formula 250 40 H250 H40)))).
Defined.

(** ** Reading a missing or damaged document *)

(** C5: when the persisted document is absent, unreadable or not decodable,
    [load_log] answers the empty log and [load_cache] the empty mapping; the
    exception of the read or of the decoding stays inside the loader, which
    always returns a document. *)
Theorem load_degrades_to_empty :
  (forall st : store CostTracker.CostLog,
     CostTracker.load_log st
     = match content st with
       | Holds data => data
       | _ => CostTracker.empty_log
       end)
  /\ (forall st : store dict,
        ItemCache.load_cache st
        = match content st with
          | Holds data => data
          | _ => []
          end)
  /\ CostTracker.empty_log = CostTracker.mkLog 0 0%float []
  /\ (forall (A : Type) (w : nat),
        open_ (mkStore (@Absent A) w) = Raise OSError
        /\ open_ (mkStore (@Unreadable A) w) = Raise OSError
        /\ (f <- open_ (mkStore (@NotJson A) w) ;; json_load f)
           = Raise JSONDecodeError).
Proof.
  split; [| split; [| split]].
  - intros [[| | | d] w]; reflexivity.
  - intros [[| | | d] w]; reflexivity.
  - reflexivity.
  - intros A w. repeat split.
Qed.

(** ** The cost log *)

Lemma load_log_save (data : CostTracker.CostLog) (st : store CostTracker.CostLog) :
  CostTracker.load_log (CostTracker.save_log data st) = data.
Proof. reflexivity. Qed.

Lemma keep_last_100 {A : Type} (l : list A) :
  (if (100 <? List.length l)%nat then Py.last_n 100 l else l) = Py.last_n 100 l.
Proof.
  destruct (Nat.ltb_spec 100 (List.length l)) as [H | H].
  - reflexivity.
  - symmetry. apply last_n_short. exact H.
Qed.

Lemma log_call_step (c : CostTracker.call_args) (st : store CostTracker.CostLog) :
  fits c ->
  CostTracker.log_call c st
  = Ok (record_of c,
        CostTracker.save_log (after_call (CostTracker.load_log st) c) st).
Proof.
  intros Hc. unfold CostTracker.log_call, CostTracker.log_api_call.
  rewrite (calculate_cost_of_call c Hc). unfold bind.
  rewrite keep_last_100. reflexivity.
Qed.

Lemma log_calls_run (cs : list CostTracker.call_args) :
  Forall fits cs ->
  forall st : store CostTracker.CostLog,
  exists st',
    CostTracker.log_calls cs st = Ok (map record_of cs, st')
    /\ CostTracker.load_log st' = fold_left after_call cs (CostTracker.load_log st)
    /\ writes st' = (writes st + List.length cs)%nat.
Proof.
  induction 1 as [| c cs Hc Hcs IH]; intros st.
  - exists st. simpl. repeat split. lia.
  - destruct (IH (CostTracker.save_log (after_call (CostTracker.load_log st) c) st))
      as (st' & Hrun & Hload & Hw).
    exists st'. simpl CostTracker.log_calls.
    rewrite (log_call_step c st Hc). unfold bind at 1. simpl snd. simpl fst.
    rewrite Hrun. unfold bind. simpl. repeat split.
    + rewrite Hload, load_log_save. reflexivity.
    + rewrite Hw. simpl. lia.
Qed.

Lemma after_calls_total_calls (cs : list CostTracker.call_args) :
  forall log,
  CostTracker.total_calls (fold_left after_call cs log)
  = CostTracker.total_calls log + Z.of_nat (List.length cs).
Proof.
  induction cs as [| c cs IH]; intros log; simpl fold_left.
  - simpl. lia.
  - rewrite IH. simpl CostTracker.total_calls.
    change (List.length (c :: cs)) with (S (List.length cs)). lia.
Qed.

Lemma after_calls_total_cost (cs : list CostTracker.call_args) :
  forall log,
  CostTracker.total_cost (fold_left after_call cs log)
  = fsum (CostTracker.total_cost log) (map cost_of cs).
Proof.
  induction cs as [| c cs IH]; intros log; simpl fold_left.
  - reflexivity.
  - rewrite IH. reflexivity.
Qed.

Lemma after_calls_calls (cs : list CostTracker.call_args) :
  forall log,
  (List.length (CostTracker.calls log) <= 100)%nat ->
  CostTracker.calls (fold_left after_call cs log)
  = Py.last_n 100 (CostTracker.calls log ++ map record_of cs).
Proof.
  induction cs as [| c cs IH]; intros log Hlen; simpl fold_left.
  - simpl map. rewrite app_nil_r. symmetry. now apply last_n_short.
  - rewrite IH.
    + simpl CostTracker.calls. rewrite last_n_absorb, <- app_assoc. reflexivity.
    + simpl CostTracker.calls. rewrite last_n_length. lia.
Qed.

Lemma float_div_int_in_range (x : float) (n : Z) :
  0 < n < Py.float_overflow ->
  Py.float_div_int x n = Ok (x / Py.quotient n 1)%float.
Proof.
  intros [H0 H1]. unfold Py.float_div_int, Py.int_to_float.
  rewrite (Z.abs_eq n) by lia.
  destruct (Z.leb_spec Py.float_overflow n) as [H | H]; [lia |].
  unfold bind. destruct (Z.eqb_spec n 0) as [E | E]; [lia | reflexivity].
Qed.

Lemma get_stats_some_calls (st : store CostTracker.CostLog) :
  CostTracker.calls (CostTracker.load_log st) <> [] ->
  0 < CostTracker.total_calls (CostTracker.load_log st) < Py.float_overflow ->
  CostTracker.get_stats st
  = let log := CostTracker.load_log st in
    let avg := (CostTracker.total_cost log
                / Py.quotient (CostTracker.total_calls log) 1)%float in
    Ok (CostTracker.mkStats
          (CostTracker.total_calls log)
          (Py.round (CostTracker.total_cost log) 4)
          (Py.round avg 4)
          (Py.last_n 10 (CostTracker.calls log))
          (Some (Py.round (avg * 30) 2))
          (Some (Py.round (avg * 900) 2))).
Proof.
  intros Hne Hrange. unfold CostTracker.get_stats.
  destruct (CostTracker.calls (CostTracker.load_log st)) as [| r rs] eqn:E;
    [congruence |].
  rewrite (float_div_int_in_range _ _ Hrange). reflexivity.
Qed.

Lemma get_stats_total_calls (st : store CostTracker.CostLog) (n : nat) :
  CostTracker.total_calls (CostTracker.load_log st) = Z.of_nat n ->
  List.length (CostTracker.calls (CostTracker.load_log st)) = Nat.min n 100 ->
  Z.of_nat n < Py.float_overflow ->
  exists s, CostTracker.get_stats st = Ok s
            /\ CostTracker.stats_total_calls s = Z.of_nat n.
Proof.
  intros Htc Hlen Hn. destruct n as [| n].
  - unfold CostTracker.get_stats.
    destruct (CostTracker.calls (CostTracker.load_log st)) as [| r rs];
      [| discriminate Hlen].
    eexists. split; reflexivity.
  - rewrite get_stats_some_calls.
    + eexists. split; [reflexivity |]. simpl. exact Htc.
    + intros E. rewrite E in Hlen. simpl in Hlen. lia.
    + rewrite Htc. lia.
Qed.

(** C1: [log_api_call] estimates the tokens of both texts, computes the
    cost, and appends a record whose [total_tokens] is the sum of the two
    estimates; each call adds 1 to [total_calls] and the cost to
    [total_cost], and keeps the last 100 records only.  So [N] calls on an
    empty log leave [total_calls = N], every cost in [total_cost], and the
    last [min N 100] records; after 150 calls the first 50 records are gone. *)
Theorem log_api_call_counts_and_retains
    (cs : list CostTracker.call_args) (st : store CostTracker.CostLog) :
  CostTracker.load_log st = CostTracker.empty_log ->
  Forall fits cs ->
  (exists rs st',
     CostTracker.log_calls cs st = Ok (rs, st')
     /\ rs = map record_of cs
     /\ List.length rs = List.length cs
     /\ Forall (fun r => CostTracker.total_tokens r
                         = CostTracker.input_tokens r
                           + CostTracker.output_tokens r) rs
     /\ CostTracker.total_calls (CostTracker.load_log st')
        = Z.of_nat (List.length cs)
     /\ (Z.of_nat (List.length cs) < Py.float_overflow ->
         exists s, CostTracker.get_stats st' = Ok s
                   /\ CostTracker.stats_total_calls s
                      = Z.of_nat (List.length cs))
     /\ CostTracker.total_cost (CostTracker.load_log st')
        = fsum 0 (map cost_of cs)
     /\ CostTracker.calls (CostTracker.load_log st') = Py.last_n 100 rs
     /\ List.length (CostTracker.calls (CostTracker.load_log st'))
        = Nat.min (List.length cs) 100
     /\ (List.length cs = 150%nat ->
         CostTracker.calls (CostTracker.load_log st') = skipn 50 rs))
  /\ (forall (c : CostTracker.call_args) (st0 : store CostTracker.CostLog),
        fits c ->
        exists r st1,
          CostTracker.log_call c st0 = Ok (r, st1)
          /\ CostTracker.input_tokens r
             = CostTracker.estimate_tokens (CostTracker.arg_input c)
          /\ CostTracker.output_tokens r
             = CostTracker.estimate_tokens (CostTracker.arg_output c)
          /\ CostTracker.total_tokens r
             = CostTracker.estimate_tokens (CostTracker.arg_input c)
               + CostTracker.estimate_tokens (CostTracker.arg_output c)
          /\ CostTracker.calculate_cost (CostTracker.input_tokens r)
                                        (CostTracker.output_tokens r)
             = Ok (cost_of c)
          /\ CostTracker.total_calls (CostTracker.load_log st1)
             = CostTracker.total_calls (CostTracker.load_log st0) + 1
          /\ CostTracker.total_cost (CostTracker.load_log st1)
             = (CostTracker.total_cost (CostTracker.load_log st0)
                + cost_of c)%float
          /\ CostTracker.calls (CostTracker.load_log st1)
             = Py.last_n 100 (CostTracker.calls (CostTracker.load_log st0)
                              ++ [r])).
Proof.
  intros Hempty Hfit. split.
  - destruct (log_calls_run cs Hfit st) as (st' & Hrun & Hload & _).
    assert (Hcalls : CostTracker.calls (CostTracker.load_log st')
                     = Py.last_n 100 (map record_of cs)).
    { rewrite Hload, after_calls_calls; rewrite Hempty; simpl; [reflexivity | lia]. }
    assert (Hlen : List.length (CostTracker.calls (CostTracker.load_log st'))
                   = Nat.min (List.length cs) 100).
    { rewrite Hcalls, last_n_length, length_map. reflexivity. }
    assert (Htc : CostTracker.total_calls (CostTracker.load_log st')
                  = Z.of_nat (List.length cs)).
    { rewrite Hload, after_calls_total_calls, Hempty. simpl. lia. }
    exists (map record_of cs), st'.
    split; [exact Hrun |]. split; [reflexivity |].
    split; [apply length_map |].
    split; [apply Forall_map, Forall_forall; intros; reflexivity |].
    split; [exact Htc |].
    split; [intros Hn; now apply get_stats_total_calls |].
    split; [rewrite Hload, after_calls_total_cost, Hempty; reflexivity |].
    split; [exact Hcalls |].
    split; [exact Hlen |].
    intros H150. rewrite Hcalls. unfold Py.last_n.
    rewrite length_map, H150. reflexivity.
  - intros c st0 Hc.
    exists (record_of c),
           (CostTracker.save_log (after_call (CostTracker.load_log st0) c) st0).
    split; [now apply log_call_step |].
    rewrite load_log_save.
    repeat split. now apply calculate_cost_of_call.
Qed.

Lemma fits_tiny_call : fits tiny_call.
Proof. split; vm_compute; reflexivity. Qed.

Lemma log_api_call_counts_and_retains_witness :
  CostTracker.load_log fresh_tracker = CostTracker.empty_log
  /\ Forall fits [tiny_call; tiny_call]
  /\ exists rs st',
       CostTracker.log_calls [tiny_call; tiny_call] fresh_tracker = Ok (rs, st')
       /\ CostTracker.total_calls (CostTracker.load_log st') = 2.
Proof.
  assert (H1 : CostTracker.load_log fresh_tracker = CostTracker.empty_log)
    by reflexivity.
  assert (H2 : Forall fits [tiny_call; tiny_call])
    by (repeat constructor; vm_compute; reflexivity).
  split; [exact H1 | split; [exact H2 |]].
  destruct (proj1 (log_api_call_counts_and_retains
                     [tiny_call; tiny_call] fresh_tracker H1 H2))
    as (rs & st' & Hrun & _ & _ & _ & Htc & _).
  exists rs, st'. split; [exact Hrun | exact Htc].
Defined.

(** C9: the record appended by [log_api_call] holds the cost rounded to six
    decimals, while [total_cost] grows by the unrounded cost; the persisted
    [total_cost] is the running sum of the unrounded costs, and it differs
    from the sum of the recorded costs already after one call on two
    one-character texts. *)
Theorem total_cost_sums_unrounded_costs
    (cs : list CostTracker.call_args) (st : store CostTracker.CostLog) :
  CostTracker.load_log st = CostTracker.empty_log ->
  Forall fits cs ->
  (exists rs st',
     CostTracker.log_calls cs st = Ok (rs, st')
     /\ map CostTracker.cost rs = map (fun c => Py.round (cost_of c) 6) cs
     /\ CostTracker.total_cost (CostTracker.load_log st')
        = fsum 0 (map cost_of cs))
  /\ (forall (c : CostTracker.call_args) (st0 : store CostTracker.CostLog),
        fits c ->
        exists r st1,
          CostTracker.log_call c st0 = Ok (r, st1)
          /\ CostTracker.calculate_cost
               (CostTracker.estimate_tokens (CostTracker.arg_input c))
               (CostTracker.estimate_tokens (CostTracker.arg_output c))
             = Ok (cost_of c)
          /\ CostTracker.cost r = Py.round (cost_of c) 6
          /\ CostTracker.total_cost (CostTracker.load_log st1)
             = (CostTracker.total_cost (CostTracker.load_log st0)
                + cost_of c)%float)
  /\ (CostTracker.log_calls [tiny_call] fresh_tracker
      = Ok ([record_of tiny_call], one_call_tracker)
      /\ CostTracker.total_cost (CostTracker.load_log one_call_tracker)
         = 1.7999999999999997e-05%float
      /\ fsum 0 (map CostTracker.cost
                     (CostTracker.calls (CostTracker.load_log one_call_tracker)))
         = 1.8e-05%float
      /\ CostTracker.total_cost (CostTracker.load_log one_call_tracker)
         <> fsum 0 (map CostTracker.cost
                        (CostTracker.calls
                           (CostTracker.load_log one_call_tracker)))).
Proof.
  intros Hempty Hfit. split; [| split].
  - destruct (log_calls_run cs Hfit st) as (st' & Hrun & Hload & _).
    exists (map record_of cs), st'.
    split; [exact Hrun |]. split.
    + rewrite map_map. reflexivity.
    + rewrite Hload, after_calls_total_cost, Hempty. reflexivity.
  - intros c st0 Hc.
    exists (record_of c),
           (CostTracker.save_log (after_call (CostTracker.load_log st0) c) st0).
    split; [now apply log_call_step |].
    split; [now apply calculate_cost_of_call |].
    rewrite load_log_save. split; reflexivity.
  - split; [vm_compute; reflexivity |].
    split; [vm_compute; reflexivity |].
    split; [vm_compute; reflexivity |].
    apply float_neq. vm_compute. discriminate.
Qed.

Lemma total_cost_sums_unrounded_costs_witness :
  CostTracker.load_log fresh_tracker = CostTracker.empty_log
  /\ Forall fits [tiny_call; tiny_call; tiny_call]
  /\ exists rs st',
       CostTracker.log_calls [tiny_call; tiny_call; tiny_call] fresh_tracker
       = Ok (rs, st')
       /\ CostTracker.total_cost (CostTracker.load_log st')
          = fsum 0 (map cost_of [tiny_call; tiny_call; tiny_call]).
Proof.
  assert (H1 : CostTracker.load_log fresh_tracker = CostTracker.empty_log)
    by reflexivity.
  assert (H2 : Forall fits [tiny_call; tiny_call; tiny_call])
    by (repeat constructor; vm_compute; reflexivity).
  split; [exact H1 | split; [exact H2 |]].
  destruct (proj1 (total_cost_sums_unrounded_costs
                     [tiny_call; tiny_call; tiny_call] fresh_tracker H1 H2))
    as (rs & st' & Hrun & _ & Hcost).
  exists rs, st'. split; [exact Hrun | exact Hcost].
Defined.

(** ** Statistics *)

(** C2, as amended: for a log with records and a positive [total_calls],
    [get_stats] returns [total_calls], [total_cost] rounded to 4 decimals,
    the quotient [total_cost / total_calls] rounded to 4 decimals as
    [average_cost], the last 10 records, and the unrounded quotient times 30
    and times 900, each rounded to 2 decimals, as the daily and monthly
    estimates; for a log without records it returns 0 calls, total cost 0.0,
    average cost 0.0 and no records. *)
Theorem get_stats_rounds_its_figures (st : store CostTracker.CostLog) :
  (CostTracker.calls (CostTracker.load_log st) = [] ->
   exists s,
     CostTracker.get_stats st = Ok s
     /\ CostTracker.stats_total_calls s = 0
     /\ CostTracker.stats_total_cost s = 0%float
     /\ CostTracker.average_cost s = 0%float
     /\ CostTracker.recent_calls s = [])
  /\ (CostTracker.calls (CostTracker.load_log st) <> [] ->
      0 < CostTracker.total_calls (CostTracker.load_log st) < Py.float_overflow ->
      exists avg s,
        Py.float_div_int (CostTracker.total_cost (CostTracker.load_log st))
                         (CostTracker.total_calls (CostTracker.load_log st))
        = Ok avg
        /\ CostTracker.get_stats st = Ok s
        /\ CostTracker.stats_total_calls s
           = CostTracker.total_calls (CostTracker.load_log st)
        /\ CostTracker.stats_total_cost s
           = Py.round (CostTracker.total_cost (CostTracker.load_log st)) 4
        /\ CostTracker.average_cost s = Py.round avg 4
        /\ CostTracker.recent_calls s
           = Py.last_n 10 (CostTracker.calls (CostTracker.load_log st))
        /\ CostTracker.daily_estimate s = Some (Py.round (avg * 30) 2)
        /\ CostTracker.monthly_estimate s = Some (Py.round (avg * 900) 2)).
Proof.
  split.
  - intros Hnil. unfold CostTracker.get_stats. rewrite Hnil.
    eexists. repeat split.
  - intros Hne Hrange.
    eexists. eexists.
    split; [now apply float_div_int_in_range |].
    split; [now apply get_stats_some_calls |].
    repeat split.
Qed.

Lemma get_stats_rounds_its_figures_witness :
  CostTracker.calls (CostTracker.load_log one_call_tracker) <> []
  /\ 0 < CostTracker.total_calls (CostTracker.load_log one_call_tracker)
       < Py.float_overflow
  /\ exists avg s,
       Py.float_div_int
         (CostTracker.total_cost (CostTracker.load_log one_call_tracker))
         (CostTracker.total_calls (CostTracker.load_log one_call_tracker))
       = Ok avg
       /\ CostTracker.get_stats one_call_tracker = Ok s
       /\ CostTracker.average_cost s = Py.round avg 4.
Proof.
  assert (H1 : CostTracker.calls (CostTracker.load_log one_call_tracker) <> [])
    by (vm_compute; discriminate).
  assert (H2 : 0 < CostTracker.total_calls (CostTracker.load_log one_call_tracker)
               < Py.float_overflow)
    by (split; vm_compute; reflexivity).
  split; [exact H1 | split; [exact H2 |]].
  destruct (proj2 (get_stats_rounds_its_figures one_call_tracker) H1 H2)
    as (avg & s & Havg & Hs & _ & _ & Hav & _).
  exists avg, s. repeat split; assumption.
Defined.

(** C2 as the specification words it fails: a new tracker gets no daily or
    monthly estimate at all, and after one call on two one-character texts
    the average returned is [0.0] while the quotient is about [1.8e-05]. *)
Lemma get_stats_not_as_specified :
  (exists s, CostTracker.get_stats fresh_tracker = Ok s
             /\ CostTracker.daily_estimate s = None
             /\ CostTracker.monthly_estimate s = None
             /\ ~ stats_as_specified (CostTracker.load_log fresh_tracker) s)
  /\ (exists s, CostTracker.get_stats one_call_tracker = Ok s
                /\ CostTracker.average_cost s = 0%float
                /\ Py.float_div_int
                     (CostTracker.total_cost
                        (CostTracker.load_log one_call_tracker))
                     (CostTracker.total_calls
                        (CostTracker.load_log one_call_tracker))
                   = Ok 1.7999999999999997e-05%float
                /\ CostTracker.monthly_estimate s = Some 0.02%float
                /\ ~ stats_as_specified
                       (CostTracker.load_log one_call_tracker) s).
Proof.
  split.
  - eexists. split; [vm_compute; reflexivity |].
    split; [reflexivity |]. split; [reflexivity |].
    intros (_ & _ & _ & _ & _ & Hday & _). discriminate Hday.
  - eexists. split; [vm_compute; reflexivity |].
    split; [reflexivity |].
    split; [vm_compute; reflexivity |].
    split; [reflexivity |].
    intros (_ & _ & _ & Havg & _).
    assert (Hne : CostTracker.total_calls
                    (CostTracker.load_log one_call_tracker) <> 0)
      by (vm_compute; discriminate).
    specialize (Havg Hne).
    apply (f_equal (fun r => match r with
                             | Ok x => Prim2SF x
                             | Raise _ => S754_nan
                             end)) in Havg.
    vm_compute in Havg. discriminate Havg.
Qed.

(** ** Strings *)

Lemma startswith_spec (p s : string) :
  Py.startswith p s = true <-> exists post : string, s = (p ++ post)%string.
Proof.
  revert s. induction p as [| a p IH]; intros s; simpl.
  - split; [intros _; now exists s | reflexivity].
  - destruct s as [| b s].
    + split; [discriminate | intros [post H]; discriminate H].
    + rewrite andb_true_iff, Ascii.eqb_eq, IH. split.
      * intros [-> [post ->]]. now exists post.
      * intros [post H]. injection H as -> ->. split; [reflexivity | now exists post].
Qed.

Lemma contains_spec (sub s : string) :
  Py.contains sub s = true <-> is_substring sub s.
Proof.
  unfold is_substring. induction s as [| b s IH].
  - simpl. rewrite orb_false_r, startswith_spec. split.
    + intros [post H]. now exists EmptyString, post.
    + intros [[| c pre] [post H]]; [now exists post | discriminate H].
  - simpl Py.contains. rewrite orb_true_iff, IH, startswith_spec. split.
    + intros [[post H] | (pre & post & H)].
      * now exists EmptyString, post.
      * exists (String b pre), post. simpl. now rewrite H.
    + intros ([| c pre] & post & H).
      * left. now exists post.
      * right. injection H as -> ->. now exists pre, post.
Qed.

Lemma lower_char_idempotent (c : ascii) :
  Py.lower_char (Py.lower_char c) = Py.lower_char c.
Proof.
  destruct c as [[] [] [] [] [] [] [] []]; reflexivity.
Qed.

Lemma lower_idempotent (s : string) : Py.lower (Py.lower s) = Py.lower s.
Proof.
  induction s as [| c s IH]; simpl; [reflexivity |].
  now rewrite lower_char_idempotent, IH.
Qed.

Lemma lower_empty (s : string) : Py.lower s = EmptyString <-> s = EmptyString.
Proof. destruct s; simpl; split; intros H; congruence. Qed.

(** ** Looking an item up *)

Lemma matches_reflect (query key : string) :
  Py.contains key query || Py.contains query key = true
  <-> key_matches query key.
Proof.
  unfold key_matches. now rewrite orb_true_iff, !contains_spec.
Qed.

Lemma get_item_loop_found (q : string) (pre : dict) (k : string) (d : value)
    (post : dict) :
  Forall (fun kv => ~ key_matches q (Py.lower (fst kv))) pre ->
  key_matches q (Py.lower k) ->
  ItemCache.get_item_loop q (pre ++ (k, d) :: post) = d.
Proof.
  induction 1 as [| [k0 d0] pre Hk0 Hpre IH]; intros Hk; simpl.
  - apply matches_reflect in Hk. now rewrite Hk.
  - simpl in Hk0. rewrite <- matches_reflect in Hk0.
    destruct (Py.contains (Py.lower k0) q || Py.contains q (Py.lower k0));
      [now contradiction Hk0 | now apply IH].
Qed.

Lemma get_item_loop_none (q : string) (cache : dict) :
  Forall (fun kv => ~ key_matches q (Py.lower (fst kv))) cache ->
  ItemCache.get_item_loop q cache = VNone.
Proof.
  induction 1 as [| [k0 d0] pre Hk0 Hpre IH]; simpl; [reflexivity |].
  simpl in Hk0. rewrite <- matches_reflect in Hk0.
  destruct (Py.contains (Py.lower k0) q || Py.contains q (Py.lower k0));
    [now contradiction Hk0 | exact IH].
Qed.

Lemma get_item_loop_cases (q : string) (cache : dict) :
  (ItemCache.get_item_loop q cache = VNone
   /\ Forall (fun kv => ~ key_matches q (Py.lower (fst kv))) cache)
  \/ (exists pre k post,
        cache = pre ++ (k, ItemCache.get_item_loop q cache) :: post
        /\ Forall (fun kv => ~ key_matches q (Py.lower (fst kv))) pre
        /\ key_matches q (Py.lower k)).
Proof.
  induction cache as [| [k0 d0] cache IH]; simpl.
  - left. split; [reflexivity | constructor].
  - destruct (Py.contains (Py.lower k0) q || Py.contains q (Py.lower k0)) eqn:E.
    + right. exists [], k0, cache. repeat split; [constructor |].
      now apply matches_reflect.
    + assert (Hk0 : ~ key_matches q (Py.lower k0)).
      { rewrite <- matches_reflect, E. discriminate. }
      destruct IH as [[Hnone Hall] | (pre & k & post & Heq & Hpre & Hk)].
      * left. split; [exact Hnone | now constructor].
      * right. exists ((k0, d0) :: pre), k, post. repeat split.
        -- simpl. now rewrite <- Heq.
        -- now constructor.
        -- exact Hk.
Qed.

Lemma keys_lower_forall (P : string -> Prop) (cache : dict) :
  keys_lower cache ->
  Forall (fun kv => P (fst kv)) cache ->
  Forall (fun kv => P (Py.lower (fst kv))) cache.
Proof.
  unfold keys_lower. intros Hl. induction 1 as [| kv cache Hkv Hc IH].
  - constructor.
  - inversion Hl as [| ? ? Hkv' Hl']; subst. constructor.
    + now rewrite Hkv'.
    + now apply IH.
Qed.

(** C3: [get_item] lower-cases the query and scans the cache in insertion
    order; it returns the data of the first entry whose key is contained in
    the query or contains it, and [None] when no key does either.  So
    ["organic milk"] finds the entry of ["milk"], and ["xyz"] finds nothing. *)
Theorem get_item_first_containment (item_name : string) (st : store dict) :
  keys_lower (ItemCache.load_cache st) ->
  (forall (pre : dict) (k : string) (d : value) (post : dict),
     ItemCache.load_cache st = pre ++ (k, d) :: post ->
     Forall (fun kv => ~ key_matches (Py.lower item_name) (fst kv)) pre ->
     key_matches (Py.lower item_name) k ->
     ItemCache.get_item item_name st = d)
  /\ (Forall (fun kv => ~ key_matches (Py.lower item_name) (fst kv))
             (ItemCache.load_cache st) ->
      ItemCache.get_item item_name st = VNone)
  /\ ((ItemCache.get_item item_name st = VNone
       /\ Forall (fun kv => ~ key_matches (Py.lower item_name) (fst kv))
                 (ItemCache.load_cache st))
      \/ (exists pre k post,
            ItemCache.load_cache st
            = pre ++ (k, ItemCache.get_item item_name st) :: post
            /\ Forall (fun kv => ~ key_matches (Py.lower item_name) (fst kv)) pre
            /\ key_matches (Py.lower item_name) k))
  /\ (forall (d : value) (w : nat),
        ItemCache.get_item "organic milk"
                           (mkStore (Holds [("milk"%string, d)]) w) = d
        /\ ItemCache.get_item "xyz" (mkStore (Holds [("milk"%string, d)]) w)
           = VNone)
  /\ ItemCache.get_item "organic milk" fresh_cache
     = ItemCache.entry (VStr "dairy") (VStr "high") (VStr "$4.99")
                       (VStr "1 gallon")
  /\ ItemCache.get_item "xyz" fresh_cache = VNone.
Proof.
  intros Hlower. unfold ItemCache.get_item.
  split; [| split; [| split; [| split; [| split]]]].
  - intros pre k d post Heq Hpre Hk. rewrite Heq in *.
    apply Forall_app in Hlower as [Hlpre Hlrest].
    inversion Hlrest as [| ? ? Hlk _]; subst. simpl in Hlk.
    apply get_item_loop_found.
    + now apply (keys_lower_forall (fun key => ~ key_matches _ key)).
    + now rewrite Hlk.
  - intros Hall. apply get_item_loop_none.
    now apply (keys_lower_forall (fun key => ~ key_matches _ key)).
  - destruct (get_item_loop_cases (Py.lower item_name) (ItemCache.load_cache st))
      as [[Hnone Hall] | (pre & k & post & Heq & Hpre & Hk)].
    + left. split; [exact Hnone |].
      clear Hnone. induction Hall as [| kv cache Hkv Hall IH]; constructor.
      * inversion Hlower as [| ? ? Hl _]; subst. now rewrite <- Hl.
      * apply IH. now inversion Hlower.
    + right. exists pre, k, post. split; [exact Heq |].
      rewrite Heq in Hlower.
      apply Forall_app in Hlower as [Hlpre Hlrest].
      inversion Hlrest as [| ? ? Hlk _]; subst. simpl in Hlk.
      rewrite Hlk in Hk. split; [| exact Hk].
      clear Heq. induction Hpre as [| kv cache Hkv Hall IH]; constructor.
      * inversion Hlpre as [| ? ? Hl _]; subst. now rewrite <- Hl.
      * apply IH. now inversion Hlpre.
  - intros d w. split; reflexivity.
  - reflexivity.
  - reflexivity.
Qed.

Lemma get_item_first_containment_witness :
  keys_lower (ItemCache.load_cache fresh_cache)
  /\ ItemCache.get_item "Whole Milk" fresh_cache
     = ItemCache.entry (VStr "dairy") (VStr "high") (VStr "$4.99")
                       (VStr "1 gallon").
Proof.
  assert (H : keys_lower (ItemCache.load_cache fresh_cache))
    by (repeat constructor).
  split; [exact H |].
  refine (proj1 (get_item_first_containment "Whole Milk" fresh_cache H)
                [] "milk"%string _ (skipn 1 ItemCache.common_items)
                eq_refl (Forall_nil _) _).
  left. now exists "whole "%string, EmptyString.
Defined.

(** ** Dictionaries *)

Lemma has_key_app (k : string) (a b : dict) :
  has_key k (a ++ b) = has_key k a || has_key k b.
Proof.
  induction a as [| [k0 v0] a IH]; simpl; [reflexivity |].
  now rewrite IH, orb_assoc.
Qed.

Lemma set_item_new (k : string) (v : value) (d : dict) :
  has_key k d = false -> set_item k v d = d ++ [(k, v)].
Proof.
  induction d as [| [k0 v0] d IH]; simpl; [reflexivity |].
  intros H. apply orb_false_iff in H as [H0 H1].
  rewrite H0. now rewrite IH.
Qed.

Lemma has_key_in (k : string) (d : dict) :
  has_key k d = true <-> In k (map fst d).
Proof.
  induction d as [| [k0 v0] d IH]; simpl.
  - split; [discriminate | contradiction].
  - rewrite orb_true_iff, String.eqb_eq, IH. reflexivity.
Qed.

Lemma load_cache_save (cache : dict) (st : store dict) :
  ItemCache.load_cache (ItemCache.save_cache cache st) = cache.
Proof. reflexivity. Qed.

(** ** Absorbing a shopping list *)

Lemma name_of_dict (item : value) (n : string) :
  name_of item = Ok n -> exists d, item = VDict d.
Proof.
  destruct item; try discriminate. intros _. now eexists.
Qed.

Lemma absorb_named (item : value) (rest : list value) (cache : dict)
    (updated : bool) (n : string) :
  name_of item = Ok n ->
  ItemCache.absorb (item :: rest) cache updated
  = if negb (String.eqb n EmptyString) && negb (has_key n cache)
    then ItemCache.absorb rest (set_item n (entry_of item) cache) true
    else ItemCache.absorb rest cache updated.
Proof.
  intros Hn. destruct (name_of_dict item n Hn) as [d ->].
  unfold name_of, py_get in Hn.
  unfold ItemCache.absorb; fold ItemCache.absorb.
  unfold ItemCache.field, py_get.
  destruct (lookup "item" d) as [name |]; unfold bind at 1 in Hn;
    unfold bind at 1; rewrite Hn; unfold bind at 1;
    (destruct (negb (String.eqb n EmptyString) && negb (has_key n cache));
     [| reflexivity]);
    unfold entry_of, field_or_none;
    destruct (lookup "category" d), (lookup "priority" d),
      (lookup "estimated_cost" d), (lookup "quantity" d); reflexivity.
Qed.

Lemma absorb_unnamed (item : value) (rest : list value) (cache : dict)
    (updated : bool) (e : exn) :
  name_of item = Raise e ->
  ItemCache.absorb (item :: rest) cache updated = Raise e.
Proof.
  unfold name_of. intros Hn.
  unfold ItemCache.absorb; fold ItemCache.absorb.
  destruct (py_get item "item" (VStr EmptyString)) as [name |].
  - unfold bind at 1 in Hn. unfold bind at 1. now rewrite Hn.
  - unfold bind in Hn. unfold bind at 1. congruence.
Qed.

Lemma absorb_nothing (items : list value) (cache : dict) (updated : bool) :
  Forall (fun it => exists n, name_of it = Ok n
                              /\ (n = EmptyString \/ has_key n cache = true))
         items ->
  ItemCache.absorb items cache updated = Ok (cache, updated).
Proof.
  induction 1 as [| item items (n & Hn & Hskip) _ IH]; [reflexivity |].
  rewrite (absorb_named _ _ _ _ _ Hn).
  destruct Hskip as [-> | Hkey].
  - simpl. exact IH.
  - rewrite Hkey, andb_false_r. exact IH.
Qed.

Lemma first_named_later (k n : string) (item0 item : value)
    (items : list value) :
  name_of item0 = Ok n -> n <> k ->
  first_named k item items -> first_named k item (item0 :: items).
Proof.
  intros Hn Hne (pre & post & -> & Hk & Hpre).
  exists (item0 :: pre), post. repeat split; [exact Hk |].
  constructor; [| exact Hpre]. rewrite Hn. congruence.
Qed.

Lemma absorb_spec (items : list value) :
  Forall (fun it => exists n, name_of it = Ok n) items ->
  forall (cache : dict) (updated : bool),
  exists added : dict,
    ItemCache.absorb items cache updated
    = Ok (cache ++ added,
          match added with [] => updated | _ :: _ => true end)
    /\ absorbed items cache added.
Proof.
  induction 1 as [| item items [n Hn] Hitems IH]; intros cache updated.
  - exists []. rewrite app_nil_r. split; [reflexivity |].
    repeat split; constructor.
  - rewrite (absorb_named _ _ _ _ _ Hn).
    destruct (String.eqb_spec n EmptyString) as [En | En];
      [| destruct (has_key n cache) eqn:Ekey]; simpl.
    + (* empty name: skipped *)
      destruct (IH cache updated) as (added & Hrun & Ha & Hb & Hc).
      exists added. split; [exact Hrun |]. split; [| split; [exact Hb |]].
      * eapply Forall_impl; [| exact Ha].
        intros [k v] (Hk & Hnew & item' & Hfirst & Hv). simpl in *.
        repeat split; try assumption. exists item'. split; [| exact Hv].
        apply (first_named_later k n); congruence.
      * constructor; [| exact Hc]. intros m Hm Hm'. congruence.
    + (* name already a key: skipped *)
      destruct (IH cache updated) as (added & Hrun & Ha & Hb & Hc).
      exists added. split; [exact Hrun |]. split; [| split; [exact Hb |]].
      * eapply Forall_impl; [| exact Ha].
        intros [k v] (Hk & Hnew & item' & Hfirst & Hv). simpl in *.
        repeat split; try assumption. exists item'. split; [| exact Hv].
        apply (first_named_later k n); congruence.
      * constructor; [| exact Hc]. intros m Hm Hm'.
        assert (m = n) by congruence. subst m.
        now rewrite has_key_app, Ekey.
    + (* a new name: inserted at the end *)
      rewrite (set_item_new _ _ _ Ekey).
      destruct (IH (cache ++ [(n, entry_of item)]) true)
        as (added & Hrun & Ha & Hb & Hc).
      exists ((n, entry_of item) :: added).
      split.
      { rewrite Hrun, <- app_assoc. simpl. now destruct added. }
      assert (Hkeys : Forall (fun kv => fst kv <> n) added).
      { eapply Forall_impl; [| exact Ha].
        intros [k v] (_ & Hnew & _) E. simpl in *. subst k.
        rewrite has_key_app in Hnew. simpl in Hnew.
        now rewrite String.eqb_refl, orb_true_r in Hnew. }
      split; [| split].
      * constructor.
        -- simpl. repeat split; try assumption.
           exists item. split; [| reflexivity].
           exists [], items. repeat split; [exact Hn | constructor].
        -- rewrite Forall_forall in Ha, Hkeys. apply Forall_forall.
           intros [k v] Hin. specialize (Hkeys _ Hin).
           destruct (Ha _ Hin) as (Hk & Hnew & item' & Hfirst & Hv).
           simpl in *. rewrite has_key_app in Hnew.
           apply orb_false_iff in Hnew as [Hnew _].
           repeat split; try assumption. exists item'. split; [| exact Hv].
           apply (first_named_later k n); congruence.
      * simpl. constructor; [| exact Hb].
        rewrite in_map_iff. intros ([k v] & Hk & Hin). simpl in Hk. subst k.
        rewrite Forall_forall in Hkeys. now apply (Hkeys _ Hin).
      * constructor.
        -- intros m Hm _. assert (m = n) by congruence. subst m.
           rewrite has_key_app. simpl. now rewrite String.eqb_refl, orb_true_r.
        -- eapply Forall_impl; [| exact Hc].
           intros it Hit m Hm Hm'. specialize (Hit m Hm Hm').
           now rewrite <- app_assoc in Hit.
Qed.

Lemma absorb_ok_named (items : list value) :
  forall (cache : dict) (updated : bool) (r : dict * bool),
  ItemCache.absorb items cache updated = Ok r -> all_named items.
Proof.
  induction items as [| item items IH]; intros cache updated r Hrun.
  - constructor.
  - destruct (name_of item) as [n | e] eqn:Hn.
    + constructor; [now exists n |].
      rewrite (absorb_named _ _ _ _ _ Hn) in Hrun.
      destruct (negb (String.eqb n EmptyString) && negb (has_key n cache));
        eapply IH; exact Hrun.
    + rewrite (absorb_unnamed _ _ _ _ _ Hn) in Hrun. discriminate Hrun.
Qed.

Lemma has_key_lookup (k : string) (d : dict) :
  has_key k d = match lookup k d with Some _ => true | None => false end.
Proof.
  induction d as [| [k0 v0] d IH]; simpl; [reflexivity |].
  destruct (String.eqb k0 k); [reflexivity | exact IH].
Qed.

Lemma extract_on_list (shopping_list : dict) (v : value) (items : list value)
    (st : store dict) :
  lookup "shopping_list" shopping_list = Some v ->
  iterate v = Ok items ->
  ItemCache.extract_and_cache_items shopping_list st
  = match ItemCache.absorb items (ItemCache.load_cache st) false with
    | Raise e => (Raise e, st)
    | Ok (cache', updated) =>
        (Ok tt, if updated then ItemCache.save_cache cache' st else st)
    end.
Proof.
  intros Hv Hit. unfold ItemCache.extract_and_cache_items.
  rewrite has_key_lookup, Hv, Hit. reflexivity.
Qed.

Lemma extract_named (shopping_list : dict) (v : value) (items : list value)
    (st : store dict) :
  lookup "shopping_list" shopping_list = Some v ->
  iterate v = Ok items ->
  all_named items ->
  exists added : dict,
    absorbed items (ItemCache.load_cache st) added
    /\ ItemCache.extract_and_cache_items shopping_list st
       = (Ok tt,
          match added with
          | [] => st
          | _ :: _ =>
              ItemCache.save_cache (ItemCache.load_cache st ++ added) st
          end).
Proof.
  intros Hv Hit Hnamed.
  destruct (absorb_spec items Hnamed (ItemCache.load_cache st) false)
    as (added & Hrun & Habs).
  exists added. split; [exact Habs |].
  rewrite (extract_on_list _ _ _ _ Hv Hit), Hrun.
  now destruct added.
Qed.

Lemma absorbed_then_nothing (items : list value) (cache added : dict)
    (updated : bool) :
  all_named items ->
  absorbed items cache added ->
  ItemCache.absorb items (cache ++ added) updated
  = Ok (cache ++ added, updated).
Proof.
  intros Hnamed (_ & _ & Hc). apply absorb_nothing.
  unfold all_named in Hnamed. rewrite Forall_forall in *.
  intros it Hin. destruct (Hnamed it Hin) as [n Hn].
  exists n. split; [exact Hn |].
  destruct (string_dec n EmptyString) as [E | E]; [now left | right].
  now apply (Hc it Hin).
Qed.

Lemma extract_again (shopping_list : dict) (st : store dict) :
  ItemCache.extract_and_cache_items shopping_list
    (snd (ItemCache.extract_and_cache_items shopping_list st))
  = ItemCache.extract_and_cache_items shopping_list st.
Proof.
  destruct (lookup "shopping_list" shopping_list) as [v |] eqn:Hv.
  - destruct (iterate v) as [items | e] eqn:Hit.
    + destruct (ItemCache.absorb items (ItemCache.load_cache st) false)
        as [[cache' updated] | e] eqn:Hrun.
      * pose proof (absorb_ok_named _ _ _ _ Hrun) as Hnamed.
        destruct (extract_named _ _ _ st Hv Hit Hnamed) as (added & Habs & Hout).
        rewrite Hout. simpl snd. destruct added as [| kv added].
        -- exact Hout.
        -- rewrite (extract_on_list _ _ _ _ Hv Hit), load_cache_save.
           now rewrite (absorbed_then_nothing _ _ _ _ Hnamed Habs).
      * rewrite (extract_on_list _ _ _ st Hv Hit), Hrun. simpl snd.
        now rewrite (extract_on_list _ _ _ st Hv Hit), Hrun.
    + unfold ItemCache.extract_and_cache_items.
      rewrite has_key_lookup, Hv, Hit. reflexivity.
  - unfold ItemCache.extract_and_cache_items.
    rewrite has_key_lookup, Hv. reflexivity.
Qed.

Lemma skipped_named (cache : dict) (item : value) :
  skipped cache item ->
  exists n, name_of item = Ok n
            /\ (n = EmptyString \/ has_key n cache = true).
Proof.
  intros (d & -> & [Hnone | (s & Hs & Hskip)]); unfold name_of, py_get.
  - rewrite Hnone. exists EmptyString. split; [reflexivity | now left].
  - rewrite Hs. exists (Py.lower s). split; [reflexivity |].
    destruct Hskip as [-> | Hkey]; [now left | now right].
Qed.

(** C6, as amended: [extract_and_cache_items] inserts an entry for every
    list item whose normalized name is not empty and not already a cache
    key, built from the first item of that name; it persists at most once,
    after the loop, and only if it inserted something.  A second call with
    the same shopping list inserts nothing and does not persist. *)
Theorem extract_and_cache_items_absorbs_once (shopping_list : dict)
    (v : value) (items : list value) (st : store dict) :
  lookup "shopping_list" shopping_list = Some v ->
  iterate v = Ok items ->
  all_named items ->
  (exists (added : dict) (st1 : store dict),
     ItemCache.extract_and_cache_items shopping_list st = (Ok tt, st1)
     /\ ItemCache.load_cache st1 = ItemCache.load_cache st ++ added
     /\ absorbed items (ItemCache.load_cache st) added
     /\ (added = [] -> st1 = st)
     /\ (added <> [] ->
         st1 = ItemCache.save_cache (ItemCache.load_cache st ++ added) st
         /\ writes st1 = S (writes st))
     /\ (writes st1 <= S (writes st))%nat
     /\ ItemCache.extract_and_cache_items shopping_list st1 = (Ok tt, st1))
  /\ (forall (p : dict) (st0 : store dict),
        ItemCache.extract_and_cache_items p
          (snd (ItemCache.extract_and_cache_items p st0))
        = ItemCache.extract_and_cache_items p st0).
Proof.
  intros Hv Hit Hnamed. split; [| exact extract_again].
  destruct (extract_named _ _ _ st Hv Hit Hnamed) as (added & Habs & Hout).
  pose proof (extract_again shopping_list st) as Hagain.
  rewrite Hout in Hagain. simpl snd in Hagain.
  exists added.
  exists (match added with
          | [] => st
          | _ :: _ => ItemCache.save_cache (ItemCache.load_cache st ++ added) st
          end).
  split; [exact Hout |]. split; [| split; [exact Habs |]].
  - destruct added; [now rewrite app_nil_r | apply load_cache_save].
  - split; [now intros -> |]. split; [| split; [| exact Hagain]].
    + intros Hne. destruct added; [congruence | split; reflexivity].
    + destruct added; simpl; lia.
Qed.

Lemma extract_and_cache_items_absorbs_once_witness :
  exists (added : dict) (st1 : store dict),
    ItemCache.extract_and_cache_items sample_payload fresh_cache = (Ok tt, st1)
    /\ map fst added = ["oat milk"%string; "tofu"%string]
    /\ ItemCache.load_cache st1 = ItemCache.load_cache fresh_cache ++ added
    /\ writes st1 = 2%nat
    /\ ItemCache.extract_and_cache_items sample_payload st1 = (Ok tt, st1).
Proof.
  assert (Hv : lookup "shopping_list" sample_payload
               = Some (VList [ VDict [ ("category"%string, VStr "misc") ];
                               VDict [ ("item"%string, VStr EmptyString);
                                       ("category"%string, VStr "misc") ];
                               VDict [ ("item"%string, VStr "Oat Milk");
                                       ("category"%string, VStr "dairy");
                                       ("quantity"%string, VStr "1 carton") ];
                               VDict [ ("item"%string, VStr "Tofu");
                                       ("priority"%string, VStr "low") ] ]))
    by reflexivity.
  assert (Hnamed : all_named
                     [ VDict [ ("category"%string, VStr "misc") ];
                       VDict [ ("item"%string, VStr EmptyString);
                               ("category"%string, VStr "misc") ];
                       VDict [ ("item"%string, VStr "Oat Milk");
                               ("category"%string, VStr "dairy");
                               ("quantity"%string, VStr "1 carton") ];
                       VDict [ ("item"%string, VStr "Tofu");
                               ("priority"%string, VStr "low") ] ])
    by (repeat constructor; eexists; reflexivity).
  destruct (proj1 (extract_and_cache_items_absorbs_once
                     sample_payload _ _ fresh_cache Hv eq_refl Hnamed))
    as (added & st1 & Hout & Hload & _ & _ & _ & _ & Hagain).
  exists added, st1.
  assert (E : st1 = snd (ItemCache.extract_and_cache_items
                           sample_payload fresh_cache))
    by now rewrite Hout.
  split; [exact Hout |]. split; [| split; [exact Hload |]].
  - apply (f_equal (fun d => map fst (skipn 3 d))) in Hload.
    simpl in Hload. rewrite <- Hload, E. reflexivity.
  - split; [rewrite E; reflexivity | exact Hagain].
Defined.

(** C6 as the specification words it fails: an item without a name has the
    empty normalized name, which is no key of the cache, and is not inserted. *)
Lemma extract_and_cache_items_skips_empty_names :
  ItemCache.extract_and_cache_items nameless_payload fresh_cache
  = (Ok tt, fresh_cache)
  /\ ~ inserts_every_new_name nameless_payload fresh_cache.
Proof.
  split; [reflexivity |].
  intros H.
  specialize (H [ VDict [ ("category"%string, VStr "misc") ] ]
                (VDict [ ("category"%string, VStr "misc") ])
                EmptyString eq_refl (or_introl eq_refl) eq_refl eq_refl).
  discriminate H.
Qed.

(** C10: when the payload has no ["shopping_list"] key, or every item of the
    list has no name, an empty name, or a name that is a cache key already,
    the call leaves the cache mapping as it was and does not write the
    cache document. *)
Theorem extract_and_cache_items_leaves_cache (shopping_list : dict)
    (st : store dict) :
  has_key "shopping_list" shopping_list = false
  \/ (exists items,
        lookup "shopping_list" shopping_list = Some (VList items)
        /\ Forall (skipped (ItemCache.load_cache st)) items) ->
  ItemCache.extract_and_cache_items shopping_list st = (Ok tt, st)
  /\ ItemCache.load_cache
       (snd (ItemCache.extract_and_cache_items shopping_list st))
     = ItemCache.load_cache st
  /\ content (snd (ItemCache.extract_and_cache_items shopping_list st))
     = content st
  /\ writes (snd (ItemCache.extract_and_cache_items shopping_list st))
     = writes st.
Proof.
  intros H.
  assert (Hout : ItemCache.extract_and_cache_items shopping_list st = (Ok tt, st)).
  { destruct H as [Hno | (items & Hv & Hskip)].
    - unfold ItemCache.extract_and_cache_items. now rewrite Hno.
    - rewrite (extract_on_list _ _ items st Hv eq_refl).
      rewrite absorb_nothing; [reflexivity |].
      eapply Forall_impl; [| exact Hskip].
      intros it. apply skipped_named. }
  rewrite Hout. repeat split.
Qed.

Lemma extract_and_cache_items_leaves_cache_witness :
  (exists items,
     lookup "shopping_list"
            [ ("shopping_list"%string,
               VList [ VDict [ ("item"%string, VStr "MILK") ];
                       VDict [ ("priority"%string, VStr "low") ] ]) ]
     = Some (VList items)
     /\ Forall (skipped (ItemCache.load_cache fresh_cache)) items)
  /\ ItemCache.extract_and_cache_items
       [ ("shopping_list"%string,
          VList [ VDict [ ("item"%string, VStr "MILK") ];
                  VDict [ ("priority"%string, VStr "low") ] ]) ]
       fresh_cache
     = (Ok tt, fresh_cache).
Proof.
  assert (H : exists items,
             lookup "shopping_list"
                    [ ("shopping_list"%string,
                       VList [ VDict [ ("item"%string, VStr "MILK") ];
                               VDict [ ("priority"%string, VStr "low") ] ]) ]
             = Some (VList items)
             /\ Forall (skipped (ItemCache.load_cache fresh_cache)) items).
  { eexists. split; [reflexivity |]. constructor; [| constructor; [| constructor]].
    - eexists. split; [reflexivity |]. right. exists "MILK"%string.
      split; [reflexivity | now right].
    - eexists. split; [reflexivity |]. now left. }
  split; [exact H |].
  exact (proj1 (extract_and_cache_items_leaves_cache _ fresh_cache (or_intror H))).
Defined.

(** ** The keys of the cache stay in lower case *)

Lemma name_of_lower (item : value) (n : string) :
  name_of item = Ok n -> Py.lower n = n.
Proof.
  unfold name_of, py_get. destruct item; try discriminate.
  destruct (lookup "item" d) as [[] |]; unfold bind, py_lower;
    try discriminate; intros H; injection H as <-;
    first [apply lower_idempotent | reflexivity].
Qed.

Lemma keys_lower_set_item (k : string) (v : value) (cache : dict) :
  Py.lower k = k -> keys_lower cache -> keys_lower (set_item k v cache).
Proof.
  intros Hk. unfold keys_lower. induction 1 as [| [k0 v0] cache H0 Hc IH]; simpl.
  - now repeat constructor.
  - destruct (String.eqb k0 k); constructor; assumption.
Qed.

Lemma keys_lower_kept (st : store dict) :
  keys_lower (ItemCache.load_cache fresh_cache)
  /\ (keys_lower (ItemCache.load_cache st) ->
      (forall (item_name : string) (item_data : value),
         keys_lower (ItemCache.load_cache
                       (ItemCache.add_item item_name item_data st)))
      /\ (forall shopping_list : dict,
            keys_lower (ItemCache.load_cache
                          (snd (ItemCache.extract_and_cache_items
                                  shopping_list st))))).
Proof.
  split; [repeat constructor |]. intros Hst. split.
  - intros item_name item_data. unfold ItemCache.add_item.
    rewrite load_cache_save. apply keys_lower_set_item; [| exact Hst].
    apply lower_idempotent.
  - intros shopping_list.
    destruct (lookup "shopping_list" shopping_list) as [v |] eqn:Hv.
    + destruct (iterate v) as [items | e] eqn:Hit.
      * rewrite (extract_on_list _ _ _ st Hv Hit).
        destruct (ItemCache.absorb items (ItemCache.load_cache st) false)
          as [[cache' updated] | e] eqn:Hrun; [| exact Hst].
        pose proof (absorb_ok_named _ _ _ _ Hrun) as Hnamed.
        destruct (absorb_spec items Hnamed (ItemCache.load_cache st) false)
          as (added & Hrun' & Ha & _).
        rewrite Hrun in Hrun'. injection Hrun' as -> ->.
        destruct added as [| kv added]; [exact Hst |].
        simpl snd. rewrite load_cache_save.
        apply Forall_app. split; [exact Hst |].
        eapply Forall_impl; [| exact Ha].
        intros [k w] (_ & _ & item & (pre & post & _ & Hk & _) & _).
        exact (name_of_lower _ _ Hk).
      * unfold ItemCache.extract_and_cache_items.
        rewrite has_key_lookup, Hv, Hit. exact Hst.
    + unfold ItemCache.extract_and_cache_items.
      rewrite has_key_lookup, Hv. exact Hst.
Qed.


(** ** Finding the braces *)

Lemma occurs_cons (c a : ascii) (s : string) :
  occurs c (String a s) <-> a = c \/ occurs c s.
Proof.
  unfold occurs. split.
  - intros ([| b pre] & post & H); simpl in H; injection H as -> ->.
    + now left.
    + right. now exists pre, post.
  - intros [-> | (pre & post & ->)].
    + now exists EmptyString, s.
    + now exists (String a pre), post.
Qed.

Lemma occurs_empty (c : ascii) : ~ occurs c EmptyString.
Proof. intros ([| b pre] & post & H); discriminate H. Qed.

Lemma find_from_absent (c : ascii) (s : string) (i : Z) :
  ~ occurs c s -> Py.find_from c s i = -1.
Proof.
  revert i. induction s as [| a s IH]; intros i H; simpl; [reflexivity |].
  rewrite occurs_cons in H.
  destruct (Ascii.eqb_spec a c) as [E | E]; [tauto |].
  apply IH. tauto.
Qed.

Lemma find_from_first (c : ascii) (pre post : string) (i : Z) :
  ~ occurs c pre ->
  Py.find_from c (pre ++ String c post) i = i + Py.len pre.
Proof.
  revert i. induction pre as [| a pre IH]; intros i H; simpl.
  - rewrite Ascii.eqb_refl. unfold Py.len. simpl. lia.
  - rewrite occurs_cons in H.
    destruct (Ascii.eqb_spec a c) as [E | E]; [tauto |].
    rewrite IH by tauto. unfold Py.len. simpl String.length. lia.
Qed.

Lemma rfind_from_absent (c : ascii) (s : string) (i : Z) :
  ~ occurs c s -> Py.rfind_from c s i = -1.
Proof.
  revert i. induction s as [| a s IH]; intros i H; simpl; [reflexivity |].
  rewrite occurs_cons in H. rewrite IH by tauto. simpl.
  destruct (Ascii.eqb_spec a c) as [E | E]; [tauto | reflexivity].
Qed.

Lemma rfind_from_last (c : ascii) (pre post : string) (i : Z) :
  0 <= i ->
  ~ occurs c post ->
  Py.rfind_from c (pre ++ String c post) i = i + Py.len pre.
Proof.
  revert i. induction pre as [| a pre IH]; intros i Hi H; simpl.
  - rewrite (rfind_from_absent c post (i + 1) H). simpl.
    rewrite Ascii.eqb_refl. unfold Py.len. simpl. lia.
  - rewrite IH by (assumption || lia).
    pose proof (len_nonneg pre) as Hlen.
    destruct (Z.eqb_spec (i + 1 + Py.len pre) (-1)) as [E | E]; [lia |].
    unfold Py.len. simpl String.length. lia.
Qed.

Lemma substring_skip (pre s : string) (m : nat) :
  substring (String.length pre) m (pre ++ s) = substring 0 m s.
Proof.
  induction pre as [| a pre IH]; simpl; [reflexivity | exact IH].
Qed.

Lemma substring_take (mid post : string) :
  substring 0 (String.length mid) (mid ++ post) = mid.
Proof.
  induction mid as [| a mid IH]; simpl.
  - now destruct post.
  - now rewrite IH.
Qed.

Lemma substring_none (n : nat) (s : string) : substring n 0 s = EmptyString.
Proof.
  revert n. induction s as [| a s IH]; intros [| n]; simpl; try reflexivity.
  apply IH.
Qed.

Lemma length_append (a b : string) :
  String.length (a ++ b) = (String.length a + String.length b)%nat.
Proof.
  induction a as [| c a IH]; simpl; [reflexivity | now rewrite IH].
Qed.

Lemma slice_middle (pre mid post : string) :
  Py.slice (pre ++ mid ++ post) (Py.len pre) (Py.len pre + Py.len mid) = mid.
Proof.
  unfold Py.slice, Py.len.
  replace (Z.of_nat (String.length pre) + Z.of_nat (String.length mid)
           - Z.of_nat (String.length pre))
    with (Z.of_nat (String.length mid)) by lia.
  rewrite !Nat2Z.id, substring_skip. apply substring_take.
Qed.

Lemma append_assoc (a b c : string) :
  ((a ++ b) ++ c = a ++ (b ++ c))%string.
Proof.
  induction a as [| x a IH]; simpl; [reflexivity | now rewrite IH].
Qed.

(** ** Parsing the reply *)

Lemma parse_body_braces (json_loads : string -> result value)
    (pre mid post : string) :
  ~ occurs "{" pre ->
  ~ occurs "}" post ->
  ClaudeProcessor.parse_body json_loads
    (pre ++ "{" ++ mid ++ "}" ++ post)
  = ClaudeProcessor.loads json_loads ("{" ++ mid ++ "}").
Proof.
  intros Hpre Hpost. unfold ClaudeProcessor.parse_body.
  pose proof (len_nonneg pre) as Hlp. pose proof (len_nonneg mid) as Hlm.
  assert (Hfind : Py.find "{" (pre ++ "{" ++ mid ++ "}" ++ post) = Py.len pre).
  { unfold Py.find. simpl append at 2.
    rewrite (find_from_first "{" pre _ 0 Hpre). lia. }
  assert (Hrfind : Py.rfind "}" (pre ++ "{" ++ mid ++ "}" ++ post)
                   = Py.len pre + Py.len mid + 1).
  { unfold Py.rfind.
    replace (pre ++ "{" ++ mid ++ "}" ++ post)%string
      with ((pre ++ "{" ++ mid) ++ String "}" post)%string
      by (rewrite !append_assoc; reflexivity).
    rewrite (rfind_from_last "}" _ post 0 (Z.le_refl 0) Hpost).
    unfold Py.len. rewrite !length_append. simpl String.length. lia. }
  rewrite Hfind, Hrfind.
  destruct (Z.eqb_spec (Py.len pre) (-1)) as [E | _]; [lia |].
  destruct (Z.eqb_spec (Py.len pre + Py.len mid + 1 + 1) 0) as [E | _]; [lia |].
  simpl orb. cbv iota. f_equal.
  replace (Py.len pre + Py.len mid + 1 + 1)
    with (Py.len pre + Py.len ("{" ++ mid ++ "}")).
  - replace (pre ++ "{" ++ mid ++ "}" ++ post)%string
      with (pre ++ ("{" ++ mid ++ "}") ++ post)%string.
    + apply slice_middle.
    + simpl. now rewrite append_assoc.
  - unfold Py.len. simpl String.length. rewrite length_append.
    simpl String.length. lia.
Qed.

Lemma parse_body_crossed (json_loads : string -> result value)
    (a b c : string) :
  ~ occurs "{" a -> ~ occurs "{" b -> ~ occurs "}" b -> ~ occurs "}" c ->
  ClaudeProcessor.parse_body json_loads (a ++ "}" ++ b ++ "{" ++ c)
  = ClaudeProcessor.loads json_loads EmptyString.
Proof.
  intros Ha Hb Hb' Hc. unfold ClaudeProcessor.parse_body.
  pose proof (len_nonneg a) as Hla. pose proof (len_nonneg b) as Hlb.
  assert (Hfind : Py.find "{" (a ++ "}" ++ b ++ "{" ++ c)
                  = Py.len a + 1 + Py.len b).
  { unfold Py.find.
    replace (a ++ "}" ++ b ++ "{" ++ c)%string
      with ((a ++ "}" ++ b) ++ String "{" c)%string
      by (rewrite !append_assoc; reflexivity).
    rewrite find_from_first.
    - unfold Py.len. rewrite !length_append. simpl String.length. lia.
    - intros (p & q & E).
      assert (Hocc : occurs "{" a \/ occurs "{" (String "}" b)).
      { clear - E. revert p E. induction a as [| x a IH]; intros p E.
        - right. now exists p, q.
        - destruct p as [| y p]; simpl in E; injection E as -> E.
          + left. now exists EmptyString, a.
          + destruct (IH p E) as [(p' & q' & ->) | H]; [left | now right].
            now exists (String y p'), q'. }
      destruct Hocc as [H | H]; [tauto |].
      apply occurs_cons in H as [H | H]; [discriminate H | tauto]. }
  assert (Hrfind : Py.rfind "}" (a ++ "}" ++ b ++ "{" ++ c) = Py.len a).
  { unfold Py.rfind. simpl append at 2.
    rewrite rfind_from_last; [lia | lia |].
    intros (p & q & E).
    assert (Hocc : occurs "}" b \/ occurs "}" (String "{" c)).
    { clear - E. revert p E. induction b as [| x b IH]; intros p E.
      - right. now exists p, q.
      - destruct p as [| y p]; simpl in E; injection E as -> E.
        + left. now exists EmptyString, b.
        + destruct (IH p E) as [(p' & q' & ->) | H]; [left | now right].
          now exists (String y p'), q'. }
    destruct Hocc as [H | H]; [tauto |].
    apply occurs_cons in H as [H | H]; [discriminate H | tauto]. }
  rewrite Hfind, Hrfind.
  destruct (Z.eqb_spec (Py.len a + 1 + Py.len b) (-1)) as [E | _]; [lia |].
  destruct (Z.eqb_spec (Py.len a + 1) 0) as [E | _]; [lia |].
  simpl orb. cbv iota. f_equal. unfold Py.slice.
  replace (Z.to_nat (Py.len a + 1 - (Py.len a + 1 + Py.len b))) with 0%nat by lia.
  apply substring_none.
Qed.

Lemma parse_body_no_brace (json_loads : string -> result value)
    (response_text : string) :
  ~ occurs "{" response_text \/ ~ occurs "}" response_text ->
  ClaudeProcessor.parse_body json_loads response_text = Raise ValueError.
Proof.
  intros H. unfold ClaudeProcessor.parse_body.
  destruct H as [H | H].
  - unfold Py.find. now rewrite (find_from_absent _ _ 0 H).
  - unfold Py.rfind. rewrite (rfind_from_absent _ _ 0 H).
    now rewrite orb_true_r.
Qed.

Lemma parse_response_no_brace (json_loads : string -> result value)
    (response_text : string) :
  ~ occurs "{" response_text \/ ~ occurs "}" response_text ->
  ClaudeProcessor._parse_response json_loads response_text
  = Ok (ClaudeProcessor.parse_failure response_text).
Proof.
  intros H. unfold ClaudeProcessor._parse_response.
  now rewrite (parse_body_no_brace json_loads response_text H).
Qed.

Lemma parse_response_of_loads (json_loads : string -> result value)
    (response_text json_str : string) :
  ClaudeProcessor.parse_body json_loads response_text
  = ClaudeProcessor.loads json_loads json_str ->
  ClaudeProcessor._parse_response json_loads response_text
  = answer_for_slice json_loads response_text json_str.
Proof.
  intros H. unfold ClaudeProcessor._parse_response. rewrite H.
  unfold ClaudeProcessor.loads, answer_for_slice.
  destruct (json_loads json_str) as [v | e]; [reflexivity |].
  destruct e; reflexivity.
Qed.

Lemma parse_response_braces (json_loads : string -> result value)
    (pre mid post : string) :
  ~ occurs "{" pre ->
  ~ occurs "}" post ->
  ClaudeProcessor._parse_response json_loads
    (pre ++ "{" ++ mid ++ "}" ++ post)
  = answer_for_slice json_loads (pre ++ "{" ++ mid ++ "}" ++ post)
                     ("{" ++ mid ++ "}").
Proof.
  intros Hpre Hpost. apply parse_response_of_loads.
  now apply parse_body_braces.
Qed.

(** C4: [_parse_response] decodes the slice that runs from the first ['{']
    to the last ['}'], both included, and returns the decoded value; when
    there is no opening or no closing brace, or the decoder rejects the
    slice, it returns the failure value with the whole text under
    [raw_response].  It returns a value as long as the decoder only rejects
    text; an exception of another kind from the decoder, as the
    [RecursionError] of deeply nested text, is not caught and reaches the
    caller. *)
Theorem parse_response_first_to_last_brace
    (json_loads : string -> result value) (response_text : string) :
  (~ occurs "{" response_text \/ ~ occurs "}" response_text ->
   ClaudeProcessor._parse_response json_loads response_text
   = Ok (ClaudeProcessor.parse_failure response_text))
  /\ (forall pre mid post : string,
        response_text = (pre ++ "{" ++ mid ++ "}" ++ post)%string ->
        ~ occurs "{" pre -> ~ occurs "}" post ->
        ClaudeProcessor._parse_response json_loads response_text
        = answer_for_slice json_loads response_text ("{" ++ mid ++ "}"))
  /\ (forall a b c : string,
        response_text = (a ++ "}" ++ b ++ "{" ++ c)%string ->
        ~ occurs "{" a -> ~ occurs "{" b ->
        ~ occurs "}" b -> ~ occurs "}" c ->
        ClaudeProcessor._parse_response json_loads response_text
        = answer_for_slice json_loads response_text EmptyString)
  /\ ClaudeProcessor.parse_failure response_text
     = VDict [ ("error"%string, VStr "Failed to parse response");
               ("raw_response"%string, VStr response_text) ]
  /\ ClaudeProcessor._parse_response json_loads
       ("Here you go: " ++ a_is_1 ++ " thanks")
     = answer_for_slice json_loads
         ("Here you go: " ++ a_is_1 ++ " thanks") a_is_1
  /\ ClaudeProcessor._parse_response json_loads "no json here"
     = Ok (ClaudeProcessor.parse_failure "no json here")
  /\ (only_rejects json_loads ->
      exists v,
        ClaudeProcessor._parse_response json_loads response_text = Ok v)
  /\ (forall (pre mid post : string) (e : exn),
        response_text = (pre ++ "{" ++ mid ++ "}" ++ post)%string ->
        ~ occurs "{" pre -> ~ occurs "}" post ->
        json_loads ("{" ++ mid ++ "}")%string = Raise e ->
        e <> JSONDecodeError -> e <> ValueError ->
        ClaudeProcessor._parse_response json_loads response_text = Raise e).
Proof.
  split; [| split; [| split; [| split; [| split; [| split; [| split]]]]]].
  - apply parse_response_no_brace.
  - intros pre mid post -> Hpre Hpost. now apply parse_response_braces.
  - intros a b c -> Ha Hb Hb' Hc. apply parse_response_of_loads.
    now apply parse_body_crossed.
  - reflexivity.
  - apply parse_response_of_loads. unfold ClaudeProcessor.parse_body.
    change (Py.slice ("Here you go: " ++ a_is_1 ++ " thanks")
                     (Py.find "{" ("Here you go: " ++ a_is_1 ++ " thanks"))
                     (Py.rfind "}" ("Here you go: " ++ a_is_1 ++ " thanks") + 1))
      with a_is_1.
    change ((Py.find "{" ("Here you go: " ++ a_is_1 ++ " thanks") =? -1)
            || (Py.rfind "}" ("Here you go: " ++ a_is_1 ++ " thanks") + 1 =? 0))
      with false.
    reflexivity.
  - reflexivity.
  - intros Honly.
    unfold ClaudeProcessor._parse_response, ClaudeProcessor.parse_body,
      ClaudeProcessor.loads.
    destruct ((Py.find "{" response_text =? -1)
              || (Py.rfind "}" response_text + 1 =? 0));
      [now eexists |].
    destruct (json_loads _) as [v | e] eqn:E; [now eexists |].
    destruct (Honly _ _ E) as [-> | ->]; now eexists.
  - intros pre mid post e -> Hpre Hpost He Hjson Hvalue.
    rewrite (parse_response_braces json_loads pre mid post Hpre Hpost).
    unfold answer_for_slice. rewrite He.
    destruct e; try reflexivity; congruence.
Qed.

Lemma parse_response_first_to_last_brace_witness :
  ~ occurs "{" "Sure: " /\ ~ occurs "}" " - done"
  /\ limited_loads 1000 ("{" ++ nested 1001 ++ "}")%string = Raise RecursionError
  /\ ClaudeProcessor._parse_response (limited_loads 1000)
       ("Sure: " ++ "{" ++ nested 1001 ++ "}" ++ " - done")
     = Raise RecursionError
  /\ ClaudeProcessor._parse_response (limited_loads 1000) "Sure: {} - done"
     = Ok (VDict []).
Proof.
  assert (H1 : ~ occurs "{" "Sure: ").
  { intros H. repeat (apply occurs_cons in H as [H | H]; [discriminate H |]).
    now apply occurs_empty in H. }
  assert (H2 : ~ occurs "}" " - done").
  { intros H. repeat (apply occurs_cons in H as [H | H]; [discriminate H |]).
    now apply occurs_empty in H. }
  assert (H3 : limited_loads 1000 ("{" ++ nested 1001 ++ "}")%string
               = Raise RecursionError)
    by (vm_compute; reflexivity).
  assert (H4 : RecursionError <> JSONDecodeError) by discriminate.
  assert (H5 : RecursionError <> ValueError) by discriminate.
  split; [exact H1 | split; [exact H2 | split; [exact H3 | split]]].
  - exact (proj2 (proj2 (proj2 (proj2 (proj2 (proj2 (proj2
             (parse_response_first_to_last_brace (limited_loads 1000)
                ("Sure: " ++ "{" ++ nested 1001 ++ "}" ++ " - done"))))))))
             "Sure: "%string (nested 1001) " - done"%string RecursionError
             eq_refl H1 H2 H3 H4 H5).
  - exact (proj1 (proj2 (parse_response_first_to_last_brace
                           (limited_loads 1000) "Sure: {} - done"))
                 "Sure: "%string EmptyString " - done"%string eq_refl H1 H2).
Defined.

(** * Further properties of the code *)

(** ** Printing figures *)

Example format_f_values :
  Report.format_f 0 4 = "0.0000"%string
  /\ Report.format_f 1.7999999999999997e-05 4 = "0.0000"%string
  /\ Report.format_f 0.02 2 = "0.02"%string
  /\ Report.format_f 2.675 2 = "2.67"%string
  /\ Report.format_f 0.125 2 = "0.12"%string
  /\ Report.format_f 1234.5678 2 = "1234.57"%string
  /\ Report.format_f 0.99995 4 = "1.0000"%string
  /\ Report.format_f 0.00005 4 = "0.0001"%string
  /\ Report.format_f 0.00015 4 = "0.0001"%string
  /\ Report.format_f 123456789.987654321 4 = "123456789.9877"%string
  /\ Report.format_f 1e22 2 = "10000000000000000000000.00"%string
  /\ Report.format_f neg_zero 4 = "-0.0000"%string
  /\ Report.format_f (-0.000000001) 2 = "-0.00"%string
  /\ Report.format_f infinity 4 = "inf"%string
  /\ Report.format_f neg_infinity 2 = "-inf"%string
  /\ Report.format_f nan 4 = "nan"%string
  /\ Report.str_int 0 = "0"%string
  /\ Report.str_int (-7) = "-7"%string
  /\ Report.str_int 1000000 = "1000000"%string.
Proof. repeat split; vm_compute; reflexivity. Qed.

Lemma last_n_last_n {A : Type} (n m : nat) (l : list A) :
  (n <= m)%nat -> Py.last_n n (Py.last_n m l) = Py.last_n n l.
Proof.
  intros Hnm. destruct (Nat.le_gt_cases (List.length l) m) as [Hle | Hgt].
  - now rewrite (last_n_short m l Hle).
  - unfold Py.last_n at 1. rewrite last_n_length.
    unfold Py.last_n. rewrite skipn_skipn. f_equal. lia.
Qed.

(** X1: on a log without records, as that of a new tracker, [print_stats]
    prints the title, the rule and the three figures, all zero, and then
    raises [KeyError] on the daily estimate. *)
Theorem print_stats_new_tracker_raises (money_bag arrow : string)
    (st : store CostTracker.CostLog) :
  CostTracker.calls (CostTracker.load_log st) = [] ->
  Report.print_stats money_bag arrow st
  = ([ (money_bag ++ " Cost Tracking Summary")%string;
       "=============================="%string;
       "Total API calls: 0"%string;
       "Total cost: $0.0000"%string;
       "Average cost per call: $0.0000"%string ],
     Raise KeyError).
Proof.
  intros Hnil. unfold Report.print_stats, CostTracker.get_stats.
  rewrite Hnil. reflexivity.
Qed.

Lemma print_stats_new_tracker_raises_witness :
  CostTracker.calls (CostTracker.load_log fresh_tracker) = []
  /\ snd (Report.print_stats "$" ">" fresh_tracker) = Raise KeyError.
Proof.
  assert (H : CostTracker.calls (CostTracker.load_log fresh_tracker) = [])
    by reflexivity.
  split; [exact H |].
  exact (f_equal snd (print_stats_new_tracker_raises "$" ">" fresh_tracker H)).
Defined.

(** X2: on a log with records and a positive [total_calls], [print_stats]
    ends normally; it prints the title, the rule and five figures (the
    rounded ones of [get_stats], the costs with 4 decimals and the estimates
    with 2), then the heading of the recent calls and one line for each of
    the last five records, in the order of the log. *)
Theorem print_stats_shows_last_five (money_bag arrow : string)
    (st : store CostTracker.CostLog) :
  CostTracker.calls (CostTracker.load_log st) <> [] ->
  0 < CostTracker.total_calls (CostTracker.load_log st) < Py.float_overflow ->
  let log := CostTracker.load_log st in
  let avg := (CostTracker.total_cost log
              / Py.quotient (CostTracker.total_calls log) 1)%float in
  Report.print_stats money_bag arrow st
  = ([ (money_bag ++ " Cost Tracking Summary")%string;
       "=============================="%string;
       ("Total API calls: "
        ++ Report.str_int (CostTracker.total_calls log))%string;
       ("Total cost: $"
        ++ Report.format_f (Py.round (CostTracker.total_cost log) 4) 4)%string;
       ("Average cost per call: $"
        ++ Report.format_f (Py.round avg 4) 4)%string;
       ("Est. daily cost (30 calls): $"
        ++ Report.format_f (Py.round (avg * 30) 2) 2)%string;
       ("Est. monthly cost: $"
        ++ Report.format_f (Py.round (avg * 900) 2) 2)%string ]
     ++ [ String (ascii_of_nat 10) "Recent calls:" ]
     ++ map (Report.call_line arrow) (Py.last_n 5 (CostTracker.calls log)),
     Ok tt)
  /\ List.length (fst (Report.print_stats money_bag arrow st))
     = (8 + Nat.min (List.length (CostTracker.calls log)) 5)%nat.
Proof.
  intros Hne Hrange log avg.
  assert (Hout : Report.print_stats money_bag arrow st
                 = ([ (money_bag ++ " Cost Tracking Summary")%string;
                      "=============================="%string;
                      ("Total API calls: "
                       ++ Report.str_int (CostTracker.total_calls log))%string;
                      ("Total cost: $"
                       ++ Report.format_f
                            (Py.round (CostTracker.total_cost log) 4) 4)%string;
                      ("Average cost per call: $"
                       ++ Report.format_f (Py.round avg 4) 4)%string;
                      ("Est. daily cost (30 calls): $"
                       ++ Report.format_f (Py.round (avg * 30) 2) 2)%string;
                      ("Est. monthly cost: $"
                       ++ Report.format_f (Py.round (avg * 900) 2) 2)%string ]
                    ++ [ String (ascii_of_nat 10) "Recent calls:" ]
                    ++ map (Report.call_line arrow)
                           (Py.last_n 5 (CostTracker.calls log)),
                    Ok tt)).
  { unfold Report.print_stats.
    rewrite (get_stats_some_calls st Hne Hrange). cbv zeta.
    unfold CostTracker.daily_estimate, CostTracker.monthly_estimate,
      CostTracker.recent_calls, CostTracker.stats_total_calls,
      CostTracker.stats_total_cost, CostTracker.average_cost.
    rewrite (last_n_last_n 5 10) by lia.
    destruct (Py.last_n 10 (CostTracker.calls (CostTracker.load_log st)))
      as [| r rs] eqn:E; [| reflexivity].
    apply (f_equal (@List.length _)) in E. rewrite last_n_length in E.
    destruct (CostTracker.calls (CostTracker.load_log st));
      [congruence | simpl in E; lia]. }
  split; [exact Hout |].
  rewrite Hout. cbn [fst].
  rewrite !length_app, length_map, last_n_length. reflexivity.
Qed.

Lemma print_stats_shows_last_five_witness :
  CostTracker.calls (CostTracker.load_log one_call_tracker) <> []
  /\ 0 < CostTracker.total_calls (CostTracker.load_log one_call_tracker)
       < Py.float_overflow
  /\ Report.print_stats "$" ">" one_call_tracker
     = ([ "$ Cost Tracking Summary"%string;
          "=============================="%string;
          "Total API calls: 1"%string;
          "Total cost: $0.0000"%string;
          "Average cost per call: $0.0000"%string;
          "Est. daily cost (30 calls): $0.00"%string;
          "Est. monthly cost: $0.02"%string;
          String (ascii_of_nat 10) "Recent calls:";
          "  2025-01-01T00:00:00 | $0.0000 | 1>1 tokens"%string ],
        Ok tt).
Proof.
  assert (H1 : CostTracker.calls (CostTracker.load_log one_call_tracker) <> [])
    by (vm_compute; discriminate).
  assert (H2 : 0 < CostTracker.total_calls (CostTracker.load_log one_call_tracker)
               < Py.float_overflow)
    by (split; vm_compute; reflexivity).
  split; [exact H1 | split; [exact H2 |]].
  rewrite (proj1 (print_stats_shows_last_five "$" ">" one_call_tracker H1 H2)).
  vm_compute. reflexivity.
Defined.

(** ** Adding and finding items *)

Lemma lookup_set_item (key k : string) (v : value) (d : dict) :
  lookup k (set_item key v d)
  = if String.eqb key k then Some v else lookup k d.
Proof.
  induction d as [| [k0 w] d IH]; simpl.
  - destruct (String.eqb_spec key k) as [-> | Hne]; [reflexivity |].
    reflexivity.
  - destruct (String.eqb_spec k0 key) as [-> | Hne]; simpl.
    + destruct (String.eqb key k); reflexivity.
    + rewrite IH.
      destruct (String.eqb_spec k0 k) as [-> | Hne']; [| reflexivity].
      destruct (String.eqb_spec key k) as [E | _]; [congruence | reflexivity].
Qed.

Lemma keys_set_item (key : string) (v : value) (d : dict) :
  map fst (set_item key v d)
  = if has_key key d then map fst d else map fst d ++ [key].
Proof.
  induction d as [| [k0 w] d IH]; simpl; [reflexivity |].
  destruct (String.eqb k0 key); simpl; [reflexivity |].
  rewrite IH. now destruct (has_key key d).
Qed.

Lemma lookup_app (k : string) (a b : dict) :
  lookup k (a ++ b)
  = match lookup k a with
    | Some v => Some v
    | None => lookup k b
    end.
Proof.
  induction a as [| [k0 w] a IH]; simpl; [reflexivity |].
  destruct (String.eqb k0 k); [reflexivity | exact IH].
Qed.

Lemma contains_refl (s : string) : Py.contains s s = true.
Proof.
  apply contains_spec. exists EmptyString, EmptyString. simpl.
  induction s as [| c s IH]; simpl; [reflexivity | now rewrite <- IH].
Qed.

Lemma contains_empty (s : string) : Py.contains EmptyString s = true.
Proof. destruct s; reflexivity. Qed.

(** X3: [add_item] files the data under the lower-cased name: afterwards
    that key holds the new data, every other key holds what it held, the
    keys keep their order with a new key going last, and the file has been
    written exactly once. *)
Theorem add_item_stores_under_lower_name (item_name : string)
    (item_data : value) (st : store dict) :
  let st' := ItemCache.add_item item_name item_data st in
  (forall k : string,
     lookup k (ItemCache.load_cache st')
     = if String.eqb (Py.lower item_name) k then Some item_data
       else lookup k (ItemCache.load_cache st))
  /\ map fst (ItemCache.load_cache st')
     = (if has_key (Py.lower item_name) (ItemCache.load_cache st)
        then map fst (ItemCache.load_cache st)
        else map fst (ItemCache.load_cache st) ++ [Py.lower item_name])
  /\ writes st' = S (writes st)
  /\ content st'
     = Holds (set_item (Py.lower item_name) item_data (ItemCache.load_cache st)).
Proof.
  intros st'. subst st'. unfold ItemCache.add_item.
  rewrite load_cache_save. split; [| split; [| split]].
  - intros k. apply lookup_set_item.
  - apply keys_set_item.
  - reflexivity.
  - reflexivity.
Qed.

Lemma get_item_loop_set_item (q : string) (data : value) (cache : dict) :
  Py.lower q = q ->
  Forall (fun kv => fst kv = q \/ ~ key_matches q (Py.lower (fst kv))) cache ->
  ItemCache.get_item_loop q (set_item q data cache) = data.
Proof.
  intros Hq. induction 1 as [| [k0 w] cache Hk0 Hc IH]; simpl.
  - now rewrite Hq, contains_refl.
  - destruct (String.eqb_spec k0 q) as [-> | Hne]; simpl.
    + now rewrite Hq, contains_refl.
    + destruct Hk0 as [E | Hno]; [now contradiction Hne |].
      simpl in Hno. rewrite <- matches_reflect in Hno.
      destruct (Py.contains (Py.lower k0) q || Py.contains q (Py.lower k0));
        [now contradiction Hno | exact IH].
Qed.

(** X4: an item that was just added is found under its name when no other
    key of the cache contains the lower-cased name or is contained in it.
    Otherwise an older entry can answer: after adding ["oat milk"] to a new
    cache, looking it up gives the seeded entry of ["milk"]. *)
Theorem get_item_after_add_item (item_name : string) (item_data : value)
    (st : store dict) :
  Forall (fun kv => fst kv = Py.lower item_name
                    \/ ~ key_matches (Py.lower item_name) (Py.lower (fst kv)))
         (ItemCache.load_cache st) ->
  ItemCache.get_item item_name (ItemCache.add_item item_name item_data st)
  = item_data
  /\ (forall d : value,
        ItemCache.get_item "oat milk" (ItemCache.add_item "oat milk" d fresh_cache)
        = ItemCache.entry (VStr "dairy") (VStr "high") (VStr "$4.99")
                          (VStr "1 gallon")).
Proof.
  intros Hothers. split; [| intros d; reflexivity].
  unfold ItemCache.get_item, ItemCache.add_item.
  rewrite load_cache_save.
  apply get_item_loop_set_item; [apply lower_idempotent | exact Hothers].
Qed.

Lemma no_match_by_computation (q k : string) :
  Py.contains k q || Py.contains q k = false -> ~ key_matches q k.
Proof.
  intros H Hm. apply matches_reflect in Hm. congruence.
Qed.

Lemma get_item_after_add_item_witness :
  Forall (fun kv => fst kv = Py.lower "Tofu"
                    \/ ~ key_matches (Py.lower "Tofu") (Py.lower (fst kv)))
         (ItemCache.load_cache fresh_cache)
  /\ ItemCache.get_item "Tofu" (ItemCache.add_item "Tofu" (VStr "soy") fresh_cache)
     = VStr "soy".
Proof.
  assert (H : Forall (fun kv => fst kv = Py.lower "Tofu"
                                \/ ~ key_matches (Py.lower "Tofu")
                                                 (Py.lower (fst kv)))
                     (ItemCache.load_cache fresh_cache)).
  { change (ItemCache.load_cache fresh_cache) with ItemCache.common_items.
    unfold ItemCache.common_items.
    repeat (apply Forall_cons;
            [right; apply no_match_by_computation; reflexivity |]).
    apply Forall_nil. }
  split; [exact H |].
  exact (proj1 (get_item_after_add_item "Tofu" (VStr "soy") fresh_cache H)).
Defined.

(** X5: [get_item] on an empty cache, such as that of an unreadable file,
    finds nothing whatever the query; on a cache with entries the empty
    query finds the first entry, since the empty string is contained in
    every key. *)
Theorem get_item_empty_cache_and_empty_query (st : store dict) :
  (ItemCache.load_cache st = [] ->
   forall item_name : string, ItemCache.get_item item_name st = VNone)
  /\ (forall (k : string) (d : value) (rest : dict),
        ItemCache.load_cache st = (k, d) :: rest ->
        ItemCache.get_item EmptyString st = d)
  /\ (forall item_name : string,
        ItemCache.get_item item_name (mkStore NotJson 0) = VNone
        /\ ItemCache.get_item item_name (ItemCache.init (mkStore NotJson 0))
           = VNone).
Proof.
  unfold ItemCache.get_item. split; [| split].
  - intros H item_name. now rewrite H.
  - intros k d rest H. rewrite H. simpl.
    now rewrite contains_empty, orb_true_r.
  - intros item_name. split; reflexivity.
Qed.

Lemma get_item_empty_cache_and_empty_query_witness :
  ItemCache.load_cache fresh_cache
  = ("milk"%string,
     ItemCache.entry (VStr "dairy") (VStr "high") (VStr "$4.99")
                     (VStr "1 gallon"))
    :: skipn 1 ItemCache.common_items
  /\ ItemCache.get_item EmptyString fresh_cache
     = ItemCache.entry (VStr "dairy") (VStr "high") (VStr "$4.99")
                       (VStr "1 gallon").
Proof.
  split; [reflexivity |].
  exact (proj1 (proj2 (get_item_empty_cache_and_empty_query fresh_cache))
               "milk"%string _ (skipn 1 ItemCache.common_items) eq_refl).
Defined.

(** X6: whatever the payload and however the call ends,
    [extract_and_cache_items] only appends to the cache: every key that was
    there keeps its place and its data. *)
Theorem extract_and_cache_items_only_appends (shopping_list : dict)
    (st : store dict) :
  exists added : dict,
    ItemCache.load_cache
      (snd (ItemCache.extract_and_cache_items shopping_list st))
    = ItemCache.load_cache st ++ added
    /\ (forall k : string,
          has_key k (ItemCache.load_cache st) = true ->
          lookup k (ItemCache.load_cache
                      (snd (ItemCache.extract_and_cache_items shopping_list st)))
          = lookup k (ItemCache.load_cache st)).
Proof.
  assert (Hframe : forall added k,
             has_key k (ItemCache.load_cache st) = true ->
             lookup k (ItemCache.load_cache st ++ added)
             = lookup k (ItemCache.load_cache st)).
  { intros added k Hk. rewrite lookup_app.
    rewrite has_key_lookup in Hk.
    now destruct (lookup k (ItemCache.load_cache st)). }
  assert (Hsame : ItemCache.load_cache st = ItemCache.load_cache st ++ [])
    by now rewrite app_nil_r.
  destruct (lookup "shopping_list" shopping_list) as [v |] eqn:Hv.
  - destruct (iterate v) as [items | e] eqn:Hit.
    + rewrite (extract_on_list _ _ _ st Hv Hit).
      destruct (ItemCache.absorb items (ItemCache.load_cache st) false)
        as [[cache' updated] | e] eqn:Hrun.
      * pose proof (absorb_ok_named _ _ _ _ Hrun) as Hnamed.
        destruct (absorb_spec items Hnamed (ItemCache.load_cache st) false)
          as (added & Hrun' & _).
        rewrite Hrun in Hrun'. injection Hrun' as -> ->.
        exists added. destruct added as [| kv added]; simpl snd.
        -- split; [exact Hsame | intros k _; reflexivity].
        -- rewrite load_cache_save. split; [reflexivity | apply Hframe].
      * exists []. split; [exact Hsame | intros k _; reflexivity].
    + exists []. unfold ItemCache.extract_and_cache_items.
      rewrite has_key_lookup, Hv, Hit.
      split; [exact Hsame | intros k _; reflexivity].
  - exists []. unfold ItemCache.extract_and_cache_items.
    rewrite has_key_lookup, Hv.
    split; [exact Hsame | intros k _; reflexivity].
Qed.

(** ** More on the cost log *)

Lemma last_n_snoc {A : Type} (n : nat) (l : list A) (a : A) :
  Py.last_n (S n) (l ++ [a]) = Py.last_n n l ++ [a].
Proof.
  unfold Py.last_n. rewrite length_app. simpl List.length.
  replace (List.length l + 1 - S n)%nat with (List.length l - n)%nat by lia.
  rewrite skipn_app.
  replace (List.length l - n - List.length l)%nat with 0%nat by lia.
  reflexivity.
Qed.

(** X7: a call on a log file that is absent or holds text that is not
    JSON starts the log over: the file then holds one call, the cost of that
    call alone and the one record, whatever the file held before. *)
Theorem log_api_call_starts_over (c : CostTracker.call_args)
    (st : store CostTracker.CostLog) :
  fits c ->
  content st = Absent \/ content st = NotJson ->
  CostTracker.log_call c st
  = Ok (record_of c,
        mkStore (Holds (CostTracker.mkLog 1 (0 + cost_of c) [record_of c]))
                (S (writes st))).
Proof.
  intros Hc Hlost. rewrite (log_call_step c st Hc).
  assert (E : CostTracker.load_log st = CostTracker.empty_log).
  { destruct st as [f w]. simpl in Hlost.
    destruct Hlost as [-> | ->]; reflexivity. }
  rewrite E. reflexivity.
Qed.

Lemma log_api_call_starts_over_witness :
  fits tiny_call
  /\ (content (mkStore (@NotJson CostTracker.CostLog) 3) = Absent
      \/ content (mkStore (@NotJson CostTracker.CostLog) 3) = NotJson)
  /\ CostTracker.log_call tiny_call (mkStore NotJson 3)
     = Ok (record_of tiny_call,
           mkStore (Holds (CostTracker.mkLog 1 (0 + cost_of tiny_call)
                                             [record_of tiny_call])) 4).
Proof.
  assert (H : content (mkStore (@NotJson CostTracker.CostLog) 3) = Absent
              \/ content (mkStore (@NotJson CostTracker.CostLog) 3) = NotJson)
    by (right; reflexivity).
  split; [exact fits_tiny_call | split; [exact H |]].
  exact (log_api_call_starts_over tiny_call (mkStore NotJson 3) fits_tiny_call H).
Defined.

(** X8: after any call the file holds a log whose records are the 99 most
    recent of the earlier ones followed by the record just returned; there
    are between 1 and 100 of them, and the file was written exactly once. *)
Theorem log_api_call_appends_returned_record (c : CostTracker.call_args)
    (st : store CostTracker.CostLog) :
  fits c ->
  exists (r : CostTracker.CallRecord) (st' : store CostTracker.CostLog),
    CostTracker.log_call c st = Ok (r, st')
    /\ CostTracker.calls (CostTracker.load_log st')
       = Py.last_n 99 (CostTracker.calls (CostTracker.load_log st)) ++ [r]
    /\ (1 <= List.length (CostTracker.calls (CostTracker.load_log st')) <= 100)%nat
    /\ content st' = Holds (CostTracker.load_log st')
    /\ writes st' = S (writes st).
Proof.
  intros Hc.
  exists (record_of c),
         (CostTracker.save_log (after_call (CostTracker.load_log st) c) st).
  split; [now apply log_call_step |].
  rewrite load_log_save. simpl CostTracker.calls.
  rewrite last_n_snoc. split; [reflexivity |]. split; [| split; reflexivity].
  rewrite length_app, last_n_length. simpl List.length. lia.
Qed.

Lemma log_api_call_appends_returned_record_witness :
  exists (r : CostTracker.CallRecord) (st' : store CostTracker.CostLog),
    CostTracker.log_call tiny_call one_call_tracker = Ok (r, st')
    /\ CostTracker.calls (CostTracker.load_log st')
       = [record_of tiny_call; r].
Proof.
  destruct (log_api_call_appends_returned_record tiny_call one_call_tracker
              fits_tiny_call)
    as (r & st' & Hrun & Hcalls & _).
  exists r, st'. split; [exact Hrun | exact Hcalls].
Defined.

(** X9: [get_stats] divides by the stored counter whenever the log has
    records: on a document with records and [total_calls] at 0 it raises
    [ZeroDivisionError], and [print_stats] then prints nothing. *)
Theorem get_stats_zero_counter_raises (st : store CostTracker.CostLog) :
  CostTracker.calls (CostTracker.load_log st) <> [] ->
  CostTracker.total_calls (CostTracker.load_log st) = 0 ->
  CostTracker.get_stats st = Raise ZeroDivisionError
  /\ (forall money_bag arrow : string,
        Report.print_stats money_bag arrow st = ([], Raise ZeroDivisionError)).
Proof.
  intros Hne Hzero.
  assert (H : CostTracker.get_stats st = Raise ZeroDivisionError).
  { unfold CostTracker.get_stats.
    destruct (CostTracker.calls (CostTracker.load_log st)); [congruence |].
    rewrite Hzero. reflexivity. }
  split; [exact H |].
  intros money_bag arrow. unfold Report.print_stats. now rewrite H.
Qed.

Lemma get_stats_zero_counter_raises_witness :
  CostTracker.calls (CostTracker.load_log zeroed_counter) <> []
  /\ CostTracker.total_calls (CostTracker.load_log zeroed_counter) = 0
  /\ CostTracker.get_stats zeroed_counter = Raise ZeroDivisionError.
Proof.
  assert (H1 : CostTracker.calls (CostTracker.load_log zeroed_counter) <> [])
    by discriminate.
  assert (H2 : CostTracker.total_calls (CostTracker.load_log zeroed_counter) = 0)
    by reflexivity.
  split; [exact H1 | split; [exact H2 |]].
  exact (proj1 (get_stats_zero_counter_raises zeroed_counter H1 H2)).
Defined.

(** X10: a run of one or more calls on a file that holds a log document,
    whatever its counters and however many records it has, adds the number
    of calls to [total_calls], adds the unrounded costs in order to
    [total_cost], and leaves the last 100 of the old records followed by the
    new ones: cutting the list after every call loses no more than cutting
    it once at the end. *)
Theorem log_calls_on_any_log (cs : list CostTracker.call_args)
    (log : CostTracker.CostLog) (w : nat) :
  Forall fits cs ->
  cs <> [] ->
  exists rs st',
    CostTracker.log_calls cs (mkStore (Holds log) w) = Ok (rs, st')
    /\ rs = map record_of cs
    /\ CostTracker.calls (CostTracker.load_log st')
       = Py.last_n 100 (CostTracker.calls log ++ rs)
    /\ (List.length (CostTracker.calls (CostTracker.load_log st')) <= 100)%nat
    /\ CostTracker.total_calls (CostTracker.load_log st')
       = CostTracker.total_calls log + Z.of_nat (List.length cs)
    /\ CostTracker.total_cost (CostTracker.load_log st')
       = fsum (CostTracker.total_cost log) (map cost_of cs)
    /\ writes st' = (w + List.length cs)%nat.
Proof.
  intros Hfit Hne.
  destruct (log_calls_run cs Hfit (mkStore (Holds log) w))
    as (st' & Hrun & Hload & Hw).
  change (CostTracker.load_log (mkStore (Holds log) w)) with log in Hload.
  assert (Hcalls : CostTracker.calls (CostTracker.load_log st')
                   = Py.last_n 100 (CostTracker.calls log ++ map record_of cs)).
  { rewrite Hload. destruct cs as [| c cs]; [congruence |].
    simpl fold_left. rewrite after_calls_calls.
    - simpl CostTracker.calls. simpl map.
      rewrite last_n_absorb, <- app_assoc. reflexivity.
    - simpl CostTracker.calls. rewrite last_n_length. lia. }
  exists (map record_of cs), st'.
  split; [exact Hrun |]. split; [reflexivity |]. split; [exact Hcalls |].
  split; [rewrite Hcalls, last_n_length; lia |].
  split; [now rewrite Hload, after_calls_total_calls |].
  split; [now rewrite Hload, after_calls_total_cost | exact Hw].
Qed.

Lemma log_calls_on_any_log_witness :
  exists rs st',
    CostTracker.log_calls [tiny_call; tiny_call]
      (mkStore (Holds (CostTracker.mkLog 7 0.5
                         (repeat (record_of tiny_call) 120))) 0)
    = Ok (rs, st')
    /\ List.length (CostTracker.calls (CostTracker.load_log st')) = 100%nat
    /\ CostTracker.total_calls (CostTracker.load_log st') = 9.
Proof.
  assert (H1 : Forall fits [tiny_call; tiny_call])
    by (repeat constructor; vm_compute; reflexivity).
  assert (H2 : [tiny_call; tiny_call] <> []) by discriminate.
  destruct (log_calls_on_any_log [tiny_call; tiny_call]
              (CostTracker.mkLog 7 0.5 (repeat (record_of tiny_call) 120))
              0 H1 H2)
    as (rs & st' & Hrun & Hrs & Hcalls & _ & Htc & _).
  exists rs, st'. split; [exact Hrun |]. split; [| exact Htc].
  rewrite Hcalls, last_n_length, length_app, Hrs. reflexivity.
Defined.

(** X11: the empty log is consistent and every call keeps a consistent log
    consistent; on a consistent log whose counter converts to a float,
    [get_stats] returns normally and reports the stored counter. *)
Theorem log_stays_consistent (st : store CostTracker.CostLog) :
  consistent CostTracker.empty_log
  /\ consistent (CostTracker.load_log (CostTracker.init (mkStore Absent 0)))
  /\ (consistent (CostTracker.load_log st) ->
      forall c : CostTracker.call_args,
        fits c ->
        exists r st',
          CostTracker.log_call c st = Ok (r, st')
          /\ consistent (CostTracker.load_log st'))
  /\ (consistent (CostTracker.load_log st) ->
      CostTracker.total_calls (CostTracker.load_log st) < Py.float_overflow ->
      exists s,
        CostTracker.get_stats st = Ok s
        /\ CostTracker.stats_total_calls s
           = CostTracker.total_calls (CostTracker.load_log st)).
Proof.
  split; [| split; [| split]].
  - split; [simpl; lia | reflexivity].
  - split; [simpl; lia | reflexivity].
  - intros [Hpos Hlen] c Hc.
    exists (record_of c),
           (CostTracker.save_log (after_call (CostTracker.load_log st) c) st).
    split; [now apply log_call_step |].
    rewrite load_log_save. unfold consistent. simpl.
    split; [lia |].
    rewrite last_n_length, length_app, Hlen. simpl List.length. lia.
  - intros [Hpos Hlen] Hrange.
    destruct (Z.eq_dec (CostTracker.total_calls (CostTracker.load_log st)) 0)
      as [Hz | Hnz].
    + rewrite Hz in *. unfold CostTracker.get_stats.
      destruct (CostTracker.calls (CostTracker.load_log st));
        [| discriminate Hlen].
      eexists. split; reflexivity.
    + rewrite get_stats_some_calls.
      * eexists. split; reflexivity.
      * intros E. rewrite E in Hlen. simpl in Hlen. lia.
      * lia.
Qed.

Lemma log_stays_consistent_witness :
  consistent (CostTracker.load_log one_call_tracker)
  /\ exists r st',
       CostTracker.log_call tiny_call one_call_tracker = Ok (r, st')
       /\ consistent (CostTracker.load_log st').
Proof.
  assert (H : consistent (CostTracker.load_log one_call_tracker))
    by (split; [vm_compute; discriminate | reflexivity]).
  split; [exact H |].
  exact (proj1 (proj2 (proj2 (log_stays_consistent one_call_tracker)))
               H tiny_call fits_tiny_call).
Defined.

(** X12: the token estimate of the tracker is that of [cost_optimizer.py]
    raised to at least 1, so the two agree from four characters on; it never
    decreases when a text gets longer, and the estimate of a concatenation
    is within one token of the sum of the estimates of its parts. *)
Theorem estimate_tokens_of_parts (a b : string) :
  CostTracker.estimate_tokens a = Z.max 1 (CostOptimizer.estimate_tokens a)
  /\ (4 <= Py.len a ->
      CostTracker.estimate_tokens a = CostOptimizer.estimate_tokens a)
  /\ (Py.len a < 4 ->
      CostTracker.estimate_tokens a = 1
      /\ CostOptimizer.estimate_tokens a = 0)
  /\ (Py.len a <= Py.len b ->
      CostTracker.estimate_tokens a <= CostTracker.estimate_tokens b)
  /\ CostTracker.estimate_tokens a + CostTracker.estimate_tokens b - 1
     <= CostTracker.estimate_tokens (a ++ b)
     <= CostTracker.estimate_tokens a + CostTracker.estimate_tokens b + 1.
Proof.
  unfold CostTracker.estimate_tokens, CostOptimizer.estimate_tokens.
  pose proof (len_nonneg a) as Ha. pose proof (len_nonneg b) as Hb.
  assert (Hab : Py.len (a ++ b) = Py.len a + Py.len b).
  { unfold Py.len. rewrite length_append. lia. }
  pose proof (Z.div_mod (Py.len a) 4 ltac:(lia)) as Da.
  pose proof (Z.mod_pos_bound (Py.len a) 4 ltac:(lia)) as Ma.
  pose proof (Z.div_mod (Py.len b) 4 ltac:(lia)) as Db.
  pose proof (Z.mod_pos_bound (Py.len b) 4 ltac:(lia)) as Mb.
  pose proof (Z.div_mod (Py.len a + Py.len b) 4 ltac:(lia)) as Dab.
  pose proof (Z.mod_pos_bound (Py.len a + Py.len b) 4 ltac:(lia)) as Mab.
  rewrite Hab.
  split; [reflexivity |]. split; [intros H; lia |]. split; [intros H; lia |].
  split; [intros H; apply Z.max_le_compat_l, Z.div_le_mono; lia | lia].
Qed.

Lemma estimate_tokens_of_parts_witness :
  4 <= Py.len "shopping"
  /\ CostTracker.estimate_tokens "shopping"
     = CostOptimizer.estimate_tokens "shopping".
Proof.
  assert (H : 4 <= Py.len "shopping") by (vm_compute; discriminate).
  split; [exact H |].
  exact (proj1 (proj2 (estimate_tokens_of_parts "shopping" "list")) H).
Defined.

(** ** Notes, prompts and timing *)

Example prompt_lengths :
  Py.len Claude.system_prompt = 343
  /\ Py.len NotesProcessor.mock_text = 193
  /\ Text.join ", " ["a"%string; "b"%string; "c"%string] = "a, b, c"%string
  /\ Text.join ", " [] = EmptyString.
Proof. repeat split; vm_compute; reflexivity. Qed.

Lemma startswith_append (p q : string) : Py.startswith p (p ++ q) = true.
Proof. apply startswith_spec. now exists q. Qed.

Lemma startswith_refl (p : string) : Py.startswith p p = true.
Proof.
  induction p as [| c p IH]; simpl; [reflexivity |].
  now rewrite Ascii.eqb_refl.
Qed.

(** X13: the prompt built from a note is empty exactly when the note has no
    text, no image and no link; a note with a text only gives
    ["Text content:"], a line feed and the text, and whenever the note has a
    text the prompt starts that way. *)
Theorem format_note_content_empty_iff_blank (note_content : Claude.Note) :
  (Claude._format_note_content note_content = EmptyString
   <-> blank_text (Claude.text note_content)
       /\ blank (Claude.images note_content)
       /\ blank (Claude.links note_content))
  /\ (forall (c : ascii) (t : string),
        Claude.text note_content = Some (String c t) ->
        Py.startswith ("Text content:" ++ Text.nl ++ String c t)
                      (Claude._format_note_content note_content) = true
        /\ (blank (Claude.images note_content) ->
            blank (Claude.links note_content) ->
            Claude._format_note_content note_content
            = ("Text content:" ++ Text.nl ++ String c t)%string)).
Proof.
  destruct note_content as [i t im li]. unfold blank, blank_text. simpl.
  split.
  - unfold Claude._format_note_content. simpl.
    destruct t as [[| c t] |], im as [[| x im] |], li as [[| k li] |];
      simpl; split;
      try (intros _; repeat split; (now left) || (now right));
      try discriminate;
      try (intros (Ht & Him & Hli);
           destruct Ht as [Ht | Ht]; try discriminate Ht;
           destruct Him as [Him | Him]; try discriminate Him;
           destruct Hli as [Hli | Hli]; discriminate Hli);
      try reflexivity.
  - intros c s ->. unfold Claude._format_note_content. simpl.
    split.
    + destruct im as [[| x im] |], li as [[| k li] |]; simpl;
        rewrite ?Ascii.eqb_refl; simpl;
        first [apply startswith_refl | apply startswith_append].
    + intros [-> | ->] [-> | ->]; reflexivity.
Qed.

Lemma format_note_content_empty_iff_blank_witness :
  Claude.text (Claude.mkNote None (Some "milk"%string) None (Some [])) = Some "milk"%string
  /\ Claude._format_note_content (Claude.mkNote None (Some "milk"%string) None (Some []))
     = ("Text content:" ++ Text.nl ++ "milk")%string.
Proof.
  split; [reflexivity |].
  exact (proj2 (proj2 (format_note_content_empty_iff_blank
                         (Claude.mkNote None (Some "milk"%string) None (Some [])))
                      "m"%char "ilk"%string eq_refl)
               (or_introl eq_refl) (or_intror eq_refl)).
Defined.

Lemma is_str_iff (x : value) (s : string) :
  Claude.is_str x s = true <-> x = VStr s.
Proof.
  destruct x; simpl; try (split; [discriminate | intros H; discriminate H]).
  rewrite String.eqb_eq. split; [now intros -> | now intros [= ->]].
Qed.

Lemma suggest_dict (d : dict) :
  Claude.suggest (VDict d) = Ok (suggestion_of (VDict d)).
Proof.
  unfold Claude.suggest, suggestion_of, timing_for, field_or_none, py_get.
  destruct (lookup "item" d) as [name |];
    destruct (lookup "priority" d) as [priority |]; unfold bind;
    try reflexivity;
    destruct (Claude.is_str priority "high"); try reflexivity;
    destruct (Claude.is_str priority "low"); reflexivity.
Qed.

Lemma suggest_not_dict (x : value) :
  ~ is_dict x -> Claude.suggest x = Raise AttributeError.
Proof.
  intros H. destruct x; try reflexivity. contradiction H. now eexists.
Qed.

Lemma suggest_all_dicts (items : list value) :
  Forall is_dict items ->
  forall acc : list value,
  Claude.suggest_all items acc = Ok (acc ++ map suggestion_of items).
Proof.
  induction 1 as [| item items [d ->] _ IH]; intros acc; simpl.
  - now rewrite app_nil_r.
  - rewrite suggest_dict. unfold bind. rewrite IH, <- app_assoc. reflexivity.
Qed.

Lemma suggest_all_stops (pre : list value) (x : value) (post acc : list value) :
  Forall is_dict pre -> ~ is_dict x ->
  Claude.suggest_all (pre ++ x :: post) acc = Raise AttributeError.
Proof.
  intros Hpre Hx. revert acc.
  induction Hpre as [| item items [d ->] _ IH]; intros acc; simpl.
  - now rewrite (suggest_not_dict x Hx).
  - rewrite suggest_dict. unfold bind. apply IH.
Qed.

(** X14: for a list of dictionaries [analyze_item_timing] returns one
    suggestion per item, in order, with the name of the item; the timing is
    ["today"] exactly when the priority is the string ["high"], ["next_week"]
    exactly when it is ["low"], and ["this_week"] otherwise; the shopping day
    is always Saturday.  An item that is not a dictionary makes the call
    raise [AttributeError]. *)
Theorem analyze_item_timing_follows_priority (items : list value) :
  (Forall is_dict items ->
   Claude.analyze_item_timing (VList items)
   = Ok (VDict [ ("timing_analysis"%string, VList (map suggestion_of items));
                 ("optimal_shopping_day"%string, VStr "Saturday");
                 ("note"%string, VStr timing_note) ]))
  /\ (forall item : value,
        lookup "item"
               match suggestion_of item with VDict s => s | _ => [] end
        = Some (field_or_none "item" item))
  /\ (forall priority : value,
        (fst (timing_for priority) = "today"%string <-> priority = VStr "high")
        /\ (fst (timing_for priority) = "next_week"%string
            <-> priority = VStr "low")
        /\ (fst (timing_for priority) = "this_week"%string
            <-> priority <> VStr "high" /\ priority <> VStr "low"))
  /\ (forall (pre : list value) (x : value) (post : list value),
        items = pre ++ x :: post ->
        Forall is_dict pre -> ~ is_dict x ->
        Claude.analyze_item_timing (VList items) = Raise AttributeError).
Proof.
  split; [| split; [| split]].
  - intros Hd. unfold Claude.analyze_item_timing. simpl iterate.
    unfold bind at 1. now rewrite (suggest_all_dicts items Hd []).
  - intros item. reflexivity.
  - intros priority. unfold timing_for.
    destruct (Claude.is_str priority "high") eqn:Eh;
      [| destruct (Claude.is_str priority "low") eqn:El]; simpl.
    + apply is_str_iff in Eh. subst priority.
      repeat split; try discriminate; try reflexivity.
      intros [H _]. now contradiction H.
    + apply is_str_iff in El. subst priority.
      repeat split; try discriminate; try reflexivity.
      intros [_ H]. now contradiction H.
    + repeat split; try discriminate.
      * intros ->. discriminate Eh.
      * intros ->. discriminate El.
      * intros ->. discriminate Eh.
      * intros ->. discriminate El.
  - intros pre x post -> Hpre Hx. unfold Claude.analyze_item_timing.
    simpl iterate. unfold bind at 1.
    now rewrite (suggest_all_stops pre x post [] Hpre Hx).
Qed.

Lemma analyze_item_timing_follows_priority_witness :
  Forall is_dict [ VDict [ ("item"%string, VStr "milk");
                           ("priority"%string, VStr "high") ];
                   VDict [ ("item"%string, VStr "snacks");
                           ("priority"%string, VStr "High") ] ]
  /\ Claude.analyze_item_timing
       (VList [ VDict [ ("item"%string, VStr "milk");
                        ("priority"%string, VStr "high") ];
                VDict [ ("item"%string, VStr "snacks");
                        ("priority"%string, VStr "High") ] ])
     = Ok (VDict
             [ ("timing_analysis"%string,
                VList [ VDict [ ("item"%string, VStr "milk");
                                ("suggested_timing"%string, VStr "today");
                                ("reason"%string, VStr "High priority item") ];
                        VDict [ ("item"%string, VStr "snacks");
                                ("suggested_timing"%string, VStr "this_week");
                                ("reason"%string, VStr "Standard timing") ] ]);
               ("optimal_shopping_day"%string, VStr "Saturday");
               ("note"%string, VStr timing_note) ]).
Proof.
  assert (H : Forall is_dict
                [ VDict [ ("item"%string, VStr "milk");
                          ("priority"%string, VStr "high") ];
                  VDict [ ("item"%string, VStr "snacks");
                          ("priority"%string, VStr "High") ] ])
    by (repeat constructor; eexists; reflexivity).
  split; [exact H |].
  exact (proj1 (analyze_item_timing_follows_priority _) H).
Defined.

(** ** From a note to a shopping list *)

Lemma len_full_input (user_prompt : string) :
  Py.len (Claude.system_prompt ++ (Text.nl ++ Text.nl) ++ user_prompt)
  = 345 + Py.len user_prompt.
Proof.
  unfold Py.len. rewrite !length_append.
  replace (String.length Claude.system_prompt) with 343%nat
    by (vm_compute; reflexivity).
  change (String.length Text.nl) with 1%nat. lia.
Qed.

Lemma fits_pipeline_call (model now : string) (note_content : Claude.Note)
    (reply : string) :
  Py.len (Claude._format_note_content note_content) + 345 < max_len ->
  Py.len reply < max_len ->
  fits (pipeline_call model now note_content reply).
Proof.
  intros Hu Hr. unfold fits, pipeline_call.
  cbn [CostTracker.arg_input CostTracker.arg_output].
  split; [rewrite len_full_input; lia | exact Hr].
Qed.

Section PipelineFacts.

Variable json_loads : string -> result value.
Variable api : string -> string -> string + string.
Variable str_exn : exn -> string.
Variable model : string.

Lemma pipeline_on_reply (now : string) (note_content : Claude.Note)
    (st : store CostTracker.CostLog) (reply : string) :
  api Claude.system_prompt (Claude._format_note_content note_content)
  = inl reply ->
  Py.len (Claude._format_note_content note_content) + 345 < max_len ->
  Py.len reply < max_len ->
  Claude.process_note_to_shopping_list json_loads api str_exn model
    now note_content st
  = (match ClaudeProcessor._parse_response json_loads reply with
     | Ok v => v
     | Raise e => Claude.failed (str_exn e)
     end,
     CostTracker.save_log
       (after_call (CostTracker.load_log st)
                   (pipeline_call model now note_content reply)) st).
Proof.
  intros Hapi Hu Hr. unfold Claude.process_note_to_shopping_list.
  rewrite Hapi.
  change (CostTracker.log_api_call now _ reply _ _ st)
    with (CostTracker.log_call (pipeline_call model now note_content reply) st).
  rewrite (log_call_step _ st (fits_pipeline_call model now _ _ Hu Hr)).
  now destruct (ClaudeProcessor._parse_response json_loads reply).
Qed.

Lemma pipeline_on_failure (now : string) (note_content : Claude.Note)
    (st : store CostTracker.CostLog) (message : string) :
  api Claude.system_prompt (Claude._format_note_content note_content)
  = inr message ->
  Claude.process_note_to_shopping_list json_loads api str_exn model
    now note_content st
  = (Claude.failed message, st).
Proof.
  intros Hapi. unfold Claude.process_note_to_shopping_list. now rewrite Hapi.
Qed.

End PipelineFacts.

(** X15: when the model replies and the cost log can be written,
    [process_note_to_shopping_list] logs exactly one call, whatever the
    reply is worth: the record carries the note identifier (or ["unknown"]),
    the model, the estimate of the system prompt, two line feeds and the
    note prompt as input tokens, and that of the reply as output tokens.
    The result is what [_parse_response] returns for the reply, or the error
    value of the [except] branch when [_parse_response] raises. *)
Theorem process_note_to_shopping_list_logs_reply
    (json_loads : string -> result value)
    (api : string -> string -> string + string) (str_exn : exn -> string)
    (model now : string) (note_content : Claude.Note)
    (st : store CostTracker.CostLog) (reply : string) :
  api Claude.system_prompt (Claude._format_note_content note_content)
  = inl reply ->
  Py.len (Claude._format_note_content note_content) + 345 < max_len ->
  Py.len reply < max_len ->
  content st <> Unreadable ->
  exists (v : value) (r : CostTracker.CallRecord)
         (st' : store CostTracker.CostLog),
    Claude.process_note_to_shopping_list json_loads api str_exn model
      now note_content st = (v, st')
    /\ (forall w : value,
          ClaudeProcessor._parse_response json_loads reply = Ok w -> v = w)
    /\ (forall e : exn,
          ClaudeProcessor._parse_response json_loads reply = Raise e ->
          v = VDict [ ("error"%string,
                       VStr ("Failed to process note: " ++ str_exn e)) ])
    /\ CostTracker.calls (CostTracker.load_log st')
       = Py.last_n 99 (CostTracker.calls (CostTracker.load_log st)) ++ [r]
    /\ CostTracker.total_calls (CostTracker.load_log st')
       = CostTracker.total_calls (CostTracker.load_log st) + 1
    /\ writes st' = S (writes st)
    /\ CostTracker.timestamp r = now
    /\ CostTracker.note_id r = logged_id note_content
    /\ CostTracker.metadata r = [ ("model"%string, model) ]
    /\ CostTracker.input_tokens r
       = (345 + Py.len (Claude._format_note_content note_content)) / 4
    /\ 86 <= CostTracker.input_tokens r
    /\ CostTracker.output_tokens r = CostTracker.estimate_tokens reply.
Proof.
  intros Hapi Hu Hr _.
  exists (match ClaudeProcessor._parse_response json_loads reply with
          | Ok v => v
          | Raise e => Claude.failed (str_exn e)
          end),
         (record_of (pipeline_call model now note_content reply)),
         (CostTracker.save_log
            (after_call (CostTracker.load_log st)
                        (pipeline_call model now note_content reply)) st).
  split; [exact (pipeline_on_reply json_loads api str_exn model now
                   note_content st reply Hapi Hu Hr) |].
  split; [intros w Hw; now rewrite Hw |].
  split; [intros e He; now rewrite He |].
  rewrite load_log_save. simpl CostTracker.calls. rewrite last_n_snoc.
  assert (Hin : CostTracker.estimate_tokens
                  (Claude.system_prompt ++ (Text.nl ++ Text.nl)
                   ++ Claude._format_note_content note_content)
                = (345 + Py.len (Claude._format_note_content note_content)) / 4
                /\ 86 <= (345 + Py.len (Claude._format_note_content
                                          note_content)) / 4).
  { unfold CostTracker.estimate_tokens. rewrite len_full_input.
    pose proof (len_nonneg (Claude._format_note_content note_content)) as H0.
    assert (86 <= (345 + Py.len (Claude._format_note_content note_content)) / 4)
      by (apply Z.div_le_lower_bound; lia).
    split; [lia | assumption]. }
  destruct Hin as [Hin Hlow].
  repeat split; try reflexivity.
  - exact Hin.
  - change (86 <= CostTracker.estimate_tokens
                    (Claude.system_prompt ++ (Text.nl ++ Text.nl)
                     ++ Claude._format_note_content note_content)).
    rewrite Hin. exact Hlow.
Qed.

Lemma process_note_to_shopping_list_logs_reply_witness :
  exists (v : value) (r : CostTracker.CallRecord)
         (st' : store CostTracker.CostLog),
    Claude.process_note_to_shopping_list toy_loads api_empty_object
      some_str_exn "claude" "2025-01-01T00:00:00"
      (Claude.mkNote None (Some "milk"%string) None None) fresh_tracker
    = (v, st')
    /\ v = VDict []
    /\ CostTracker.note_id r = "unknown"%string
    /\ CostTracker.calls (CostTracker.load_log st') = [r].
Proof.
  assert (Hst : content fresh_tracker <> Unreadable) by discriminate.
  destruct (process_note_to_shopping_list_logs_reply toy_loads api_empty_object
              some_str_exn "claude" "2025-01-01T00:00:00"
              (Claude.mkNote None (Some "milk"%string) None None)
              fresh_tracker "{}" eq_refl)
    as (v & r & st' & Hrun & Hparse & _ & Hcalls & _ & _ & _ & Hid & _).
  - vm_compute. reflexivity.
  - vm_compute. reflexivity.
  - exact Hst.
  - exists v, r, st'. repeat split; try assumption.
    apply Hparse. reflexivity.
Defined.

Section ProcessNoteFacts.

Variable json_loads : string -> result value.
Variable api : string -> string -> string + string.
Variable str_exn : exn -> string.
Variable model : string.
Variable fetch : string -> option Claude.Note.

Lemma process_note_on_reply (now processed_at note_id : string)
    (st : store CostTracker.CostLog) (note_content : Claude.Note)
    (reply : string) (v : value) :
  fetch note_id = Some note_content ->
  api Claude.system_prompt (Claude._format_note_content note_content)
  = inl reply ->
  Py.len (Claude._format_note_content note_content) + 345 < max_len ->
  Py.len reply < max_len ->
  ClaudeProcessor._parse_response json_loads reply = Ok v ->
  NotesProcessor.process_note json_loads api str_exn model fetch
    now processed_at note_id st
  = (has_error <- NotesProcessor.py_in "error" v ;;
     if has_error then Ok v
     else
       items <- py_get v "shopping_list" VNone ;;
       shopping_list <-
         (if NotesProcessor.truthy items then
            timing_analysis <- Claude.analyze_item_timing items ;;
            NotesProcessor.py_set v "timing" timing_analysis
          else Ok v) ;;
       NotesProcessor.py_set shopping_list "metadata"
         (note_metadata note_id processed_at),
     CostTracker.save_log
       (after_call (CostTracker.load_log st)
                   (pipeline_call model now note_content reply)) st).
Proof.
  intros Hfetch Hapi Hu Hr Hparse. unfold NotesProcessor.process_note.
  rewrite Hfetch.
  rewrite (pipeline_on_reply json_loads api str_exn model now note_content
             st reply Hapi Hu Hr).
  rewrite Hparse. reflexivity.
Qed.

End ProcessNoteFacts.

(** X16: [process_note] hands an error on as it is, with no timing and no
    metadata: the error of a note that could not be fetched, that of a
    failed call to the model, which leaves the cost log untouched, and any
    parsed reply that has an ["error"] key, among them the failure value of
    a reply without braces, for which one call has been logged. *)
Theorem process_note_hands_errors_on
    (json_loads : string -> result value)
    (api : string -> string -> string + string) (str_exn : exn -> string)
    (model : string) (fetch : string -> option Claude.Note)
    (now processed_at note_id : string) (st : store CostTracker.CostLog) :
  (fetch note_id = None ->
   NotesProcessor.process_note json_loads api str_exn model fetch
     now processed_at note_id st
   = (Ok (VDict [ ("error"%string,
                   VStr ("Could not fetch note: " ++ note_id)) ]), st))
  /\ (forall (note_content : Claude.Note) (message : string),
        fetch note_id = Some note_content ->
        api Claude.system_prompt (Claude._format_note_content note_content)
        = inr message ->
        NotesProcessor.process_note json_loads api str_exn model fetch
          now processed_at note_id st
        = (Ok (VDict [ ("error"%string,
                        VStr ("Failed to process note: " ++ message)) ]), st))
  /\ (forall (note_content : Claude.Note) (reply : string),
        fetch note_id = Some note_content ->
        api Claude.system_prompt (Claude._format_note_content note_content)
        = inl reply ->
        Py.len (Claude._format_note_content note_content) + 345 < max_len ->
        Py.len reply < max_len ->
        (forall v : value,
           ClaudeProcessor._parse_response json_loads reply = Ok v ->
           NotesProcessor.py_in "error" v = Ok true ->
           NotesProcessor.process_note json_loads api str_exn model fetch
             now processed_at note_id st
           = (Ok v,
              CostTracker.save_log
                (after_call (CostTracker.load_log st)
                            (pipeline_call model now note_content reply)) st))
        /\ (~ occurs "{" reply \/ ~ occurs "}" reply ->
            NotesProcessor.process_note json_loads api str_exn model fetch
              now processed_at note_id st
            = (Ok (ClaudeProcessor.parse_failure reply),
               CostTracker.save_log
                 (after_call (CostTracker.load_log st)
                             (pipeline_call model now note_content reply)) st))).
Proof.
  split; [| split].
  - intros Hfetch. unfold NotesProcessor.process_note. now rewrite Hfetch.
  - intros note_content message Hfetch Hapi.
    unfold NotesProcessor.process_note. rewrite Hfetch.
    rewrite (pipeline_on_failure json_loads api str_exn model now note_content
               st message Hapi).
    reflexivity.
  - intros note_content reply Hfetch Hapi Hu Hr. split.
    + intros v Hparse Herr.
      rewrite (process_note_on_reply json_loads api str_exn model fetch
                 now processed_at note_id st note_content reply v
                 Hfetch Hapi Hu Hr Hparse).
      now rewrite Herr.
    + intros Hno.
      assert (Hparse : ClaudeProcessor._parse_response json_loads reply
                       = Ok (ClaudeProcessor.parse_failure reply)).
      { now apply parse_response_no_brace. }
      rewrite (process_note_on_reply json_loads api str_exn model fetch
                 now processed_at note_id st note_content reply _
                 Hfetch Hapi Hu Hr Hparse).
      reflexivity.
Qed.

Lemma process_note_hands_errors_on_witness :
  NotesProcessor.fetch_note_from_mcp "n1"
  = Some (Claude.mkNote (Some "n1"%string) (Some NotesProcessor.mock_text)
                        (Some []) (Some []))
  /\ NotesProcessor.process_note toy_loads api_down some_str_exn "claude"
       NotesProcessor.fetch_note_from_mcp "t1" "t2" "n1" fresh_tracker
     = (Ok (VDict [ ("error"%string,
                     VStr "Failed to process note: Connection error.") ]),
        fresh_tracker).
Proof.
  split; [reflexivity |].
  exact (proj1 (proj2 (process_note_hands_errors_on toy_loads api_down
                         some_str_exn "claude"
                         NotesProcessor.fetch_note_from_mcp
                         "t1" "t2" "n1" fresh_tracker))
               _ "Connection error."%string eq_refl eq_refl).
Defined.

(** X17: when the reply decodes to a dictionary without an ["error"] key,
    [process_note] returns that dictionary with its ["metadata"] set to the
    source note, the time, the version and the phase, replacing any metadata
    of the reply; ["timing"] is set to the timing analysis when the
    ["shopping_list"] of the reply is not empty and left alone otherwise,
    and every other key keeps its value. *)
Theorem process_note_attaches_metadata
    (json_loads : string -> result value)
    (api : string -> string -> string + string) (str_exn : exn -> string)
    (model : string) (fetch : string -> option Claude.Note)
    (now processed_at note_id : string) (st : store CostTracker.CostLog)
    (note_content : Claude.Note) (reply : string) (d : dict)
    (timing_analysis : value) :
  fetch note_id = Some note_content ->
  api Claude.system_prompt (Claude._format_note_content note_content)
  = inl reply ->
  Py.len (Claude._format_note_content note_content) + 345 < max_len ->
  Py.len reply < max_len ->
  ClaudeProcessor._parse_response json_loads reply = Ok (VDict d) ->
  has_key "error" d = false ->
  (NotesProcessor.truthy (field_or_none "shopping_list" (VDict d)) = true ->
   Claude.analyze_item_timing (field_or_none "shopping_list" (VDict d))
   = Ok timing_analysis) ->
  exists d' : dict,
    fst (NotesProcessor.process_note json_loads api str_exn model fetch
           now processed_at note_id st)
    = Ok (VDict d')
    /\ lookup "metadata" d' = Some (note_metadata note_id processed_at)
    /\ lookup "timing" d'
       = (if NotesProcessor.truthy (field_or_none "shopping_list" (VDict d))
          then Some timing_analysis
          else lookup "timing" d)
    /\ (forall k : string,
          k <> "metadata"%string -> k <> "timing"%string ->
          lookup k d' = lookup k d).
Proof.
  intros Hfetch Hapi Hu Hr Hparse Herr Htiming.
  rewrite (process_note_on_reply json_loads api str_exn model fetch
             now processed_at note_id st note_content reply _
             Hfetch Hapi Hu Hr Hparse).
  cbn [fst]. unfold NotesProcessor.py_in. rewrite Herr. unfold bind at 1.
  assert (Hget : py_get (VDict d) "shopping_list" VNone
                 = Ok (field_or_none "shopping_list" (VDict d))).
  { unfold py_get, field_or_none. now destruct (lookup "shopping_list" d). }
  rewrite Hget. unfold bind at 1.
  destruct (NotesProcessor.truthy (field_or_none "shopping_list" (VDict d)))
    eqn:Et.
  - rewrite (Htiming eq_refl). unfold bind, NotesProcessor.py_set.
    eexists. split; [reflexivity |].
    split; [| split].
    + rewrite lookup_set_item. reflexivity.
    + rewrite !lookup_set_item. reflexivity.
    + intros k Hm Ht. rewrite !lookup_set_item.
      destruct (String.eqb_spec "metadata" k) as [E | _]; [congruence |].
      destruct (String.eqb_spec "timing" k) as [E | _]; [congruence |].
      reflexivity.
  - unfold bind, NotesProcessor.py_set.
    eexists. split; [reflexivity |].
    split; [| split].
    + rewrite lookup_set_item. reflexivity.
    + rewrite lookup_set_item. reflexivity.
    + intros k Hm Ht. rewrite lookup_set_item.
      destruct (String.eqb_spec "metadata" k) as [E | _]; [congruence |].
      reflexivity.
Qed.

Lemma process_note_attaches_metadata_witness :
  exists d' : dict,
    fst (NotesProcessor.process_note toy_loads api_empty_object some_str_exn
           "claude" NotesProcessor.fetch_note_from_mcp "t1" "t2" "n1"
           fresh_tracker)
    = Ok (VDict d')
    /\ lookup "metadata" d' = Some (note_metadata "n1" "t2")
    /\ lookup "timing" d' = None.
Proof.
  destruct (process_note_attaches_metadata toy_loads api_empty_object
              some_str_exn "claude" NotesProcessor.fetch_note_from_mcp
              "t1" "t2" "n1" fresh_tracker
              (Claude.mkNote (Some "n1"%string) (Some NotesProcessor.mock_text)
                             (Some []) (Some []))
              "{}" [] VNone eq_refl eq_refl)
    as (d' & Hrun & Hmeta & Htiming & _).
  - vm_compute. reflexivity.
  - vm_compute. reflexivity.
  - reflexivity.
  - reflexivity.
  - intros H. discriminate H.
  - exists d'. split; [exact Hrun | split; [exact Hmeta | exact Htiming]].
Defined.

(** ** Finding what was absorbed *)

Lemma has_key_split (k : string) (d : dict) :
  has_key k d = true -> exists pre v post, d = pre ++ (k, v) :: post.
Proof.
  induction d as [| [k0 v0] d IH]; simpl; [discriminate |].
  destruct (String.eqb_spec k0 k) as [-> | Hne]; simpl.
  - intros _. now exists [], v0, d.
  - intros H. destruct (IH H) as (pre & v & post & ->).
    now exists ((k0, v0) :: pre), v, post.
Qed.

Lemma key_matches_refl (q : string) : key_matches q q.
Proof. left. exists EmptyString, EmptyString. simpl.
  induction q as [| c q IH]; simpl; [reflexivity | now rewrite <- IH].
Qed.

(** X18: after a shopping list has been absorbed, looking up the name of any
    of its items, in any letter case, is answered by an entry of the cache
    whose key fuzzy-matches the name: the entry of the item itself, or an
    older one that comes first. *)
Theorem absorbed_items_are_found (shopping_list : dict) (items : list value)
    (st : store dict) (item : value) (s : string) :
  lookup "shopping_list" shopping_list = Some (VList items) ->
  all_named items ->
  In item items ->
  field_or_none "item" item = VStr s ->
  s <> EmptyString ->
  let st' := snd (ItemCache.extract_and_cache_items shopping_list st) in
  has_key (Py.lower s) (ItemCache.load_cache st') = true
  /\ exists pre k post,
       ItemCache.load_cache st'
       = pre ++ (k, ItemCache.get_item s st') :: post
       /\ Forall (fun kv => ~ key_matches (Py.lower s) (Py.lower (fst kv))) pre
       /\ key_matches (Py.lower s) (Py.lower k).
Proof.
  intros Hv Hnamed Hin Hname Hs st'.
  assert (Hn : name_of item = Ok (Py.lower s)).
  { unfold all_named in Hnamed. rewrite Forall_forall in Hnamed.
    destruct (Hnamed item Hin) as [n Hn].
    destruct (name_of_dict item n Hn) as [d ->].
    unfold name_of, py_get. simpl in Hname.
    destruct (lookup "item" d) as [w |]; [| discriminate Hname].
    now subst w. }
  assert (Hkey : has_key (Py.lower s) (ItemCache.load_cache st') = true).
  { subst st'.
    destruct (extract_named shopping_list (VList items) items st Hv eq_refl
                Hnamed) as (added & (_ & _ & Hc) & Hout).
    rewrite Hout. simpl snd. rewrite Forall_forall in Hc.
    assert (Hlow : Py.lower s <> EmptyString)
      by (intros E; exact (Hs (proj1 (lower_empty s) E))).
    specialize (Hc item Hin (Py.lower s) Hn Hlow).
    destruct added as [| kv added].
    - now rewrite app_nil_r in Hc.
    - now rewrite load_cache_save. }
  split; [exact Hkey |].
  unfold ItemCache.get_item.
  destruct (get_item_loop_cases (Py.lower s) (ItemCache.load_cache st'))
    as [[_ Hall] | Hfound]; [| exact Hfound].
  exfalso. destruct (has_key_split _ _ Hkey) as (pre & v & post & E).
  rewrite E in Hall. apply Forall_app in Hall as [_ Hall].
  inversion Hall as [| ? ? Hno _]; subst. apply Hno. simpl.
  rewrite lower_idempotent. apply key_matches_refl.
Qed.

Lemma absorbed_items_are_found_witness :
  has_key (Py.lower "Tofu")
          (ItemCache.load_cache
             (snd (ItemCache.extract_and_cache_items sample_payload
                                                     fresh_cache)))
  = true.
Proof.
  assert (Hnamed : all_named
                     [ VDict [ ("category"%string, VStr "misc") ];
                       VDict [ ("item"%string, VStr EmptyString);
                               ("category"%string, VStr "misc") ];
                       VDict [ ("item"%string, VStr "Oat Milk");
                               ("category"%string, VStr "dairy");
                               ("quantity"%string, VStr "1 carton") ];
                       VDict [ ("item"%string, VStr "Tofu");
                               ("priority"%string, VStr "low") ] ])
    by (repeat constructor; eexists; reflexivity).
  assert (Hs : "Tofu"%string <> EmptyString) by discriminate.
  refine (proj1 (absorbed_items_are_found sample_payload _ fresh_cache
                   (VDict [ ("item"%string, VStr "Tofu");
                            ("priority"%string, VStr "low") ])
                   "Tofu" eq_refl Hnamed _ eq_refl Hs)).
  simpl. tauto.
Defined.

(** ** Statistics of a run *)

(** X19: after [N] calls on a new tracker, with [N] positive and small
    enough for a float, [get_stats] reports [N] calls, the running sum of
    the unrounded costs rounded to 4 decimals, and the records of the last
    [min N 10] calls. *)
Theorem get_stats_after_calls (cs : list CostTracker.call_args)
    (st : store CostTracker.CostLog) :
  CostTracker.load_log st = CostTracker.empty_log ->
  Forall fits cs ->
  cs <> [] ->
  Z.of_nat (List.length cs) < Py.float_overflow ->
  exists rs st' s,
    CostTracker.log_calls cs st = Ok (rs, st')
    /\ CostTracker.get_stats st' = Ok s
    /\ CostTracker.stats_total_calls s = Z.of_nat (List.length cs)
    /\ CostTracker.stats_total_cost s
       = Py.round (fsum 0 (map cost_of cs)) 4
    /\ CostTracker.recent_calls s = Py.last_n 10 rs
    /\ List.length (CostTracker.recent_calls s)
       = Nat.min (List.length cs) 10.
Proof.
  intros Hempty Hfit Hne Hn.
  destruct (log_calls_run cs Hfit st) as (st' & Hrun & Hload & _).
  assert (Hcalls : CostTracker.calls (CostTracker.load_log st')
                   = Py.last_n 100 (map record_of cs)).
  { rewrite Hload, after_calls_calls; rewrite Hempty; simpl; [reflexivity | lia]. }
  assert (Htc : CostTracker.total_calls (CostTracker.load_log st')
                = Z.of_nat (List.length cs)).
  { rewrite Hload, after_calls_total_calls, Hempty. simpl. lia. }
  assert (Hcost : CostTracker.total_cost (CostTracker.load_log st')
                  = fsum 0 (map cost_of cs)).
  { rewrite Hload, after_calls_total_cost, Hempty. reflexivity. }
  assert (Hlen : (0 < List.length cs)%nat)
    by (destruct cs; [congruence | simpl; lia]).
  exists (map record_of cs), st'. eexists.
  split; [exact Hrun |]. split.
  - apply get_stats_some_calls.
    + intros E. rewrite Hcalls in E.
      apply (f_equal (@List.length _)) in E.
      rewrite last_n_length, length_map in E. simpl in E. lia.
    + rewrite Htc. lia.
  - cbv zeta. simpl CostTracker.stats_total_calls.
    simpl CostTracker.stats_total_cost. simpl CostTracker.recent_calls.
    rewrite Htc, Hcost, Hcalls, (last_n_last_n 10 100) by lia.
    repeat split. rewrite last_n_length, length_map. reflexivity.
Qed.

Lemma get_stats_after_calls_witness :
  exists rs st' s,
    CostTracker.log_calls [tiny_call; tiny_call] fresh_tracker = Ok (rs, st')
    /\ CostTracker.get_stats st' = Ok s
    /\ CostTracker.stats_total_calls s = 2.
Proof.
  assert (H1 : CostTracker.load_log fresh_tracker = CostTracker.empty_log)
    by reflexivity.
  assert (H2 : Forall fits [tiny_call; tiny_call])
    by (repeat constructor; vm_compute; reflexivity).
  assert (H3 : [tiny_call; tiny_call] <> []) by discriminate.
  assert (H4 : Z.of_nat (List.length [tiny_call; tiny_call]) < Py.float_overflow)
    by (vm_compute; reflexivity).
  destruct (get_stats_after_calls [tiny_call; tiny_call] fresh_tracker
              H1 H2 H3 H4)
    as (rs & st' & s & Hrun & Hs & Htc & _).
  exists rs, st', s. repeat split; assumption.
Defined.

(** ** The text output *)

Section TextFacts.

Variable py_str : value -> string.

Lemma item_line_named (item : value) :
  has_name item ->
  TextOutput.item_line py_str item = Ok (line_of py_str item).
Proof.
  intros (d & name & -> & Hname).
  unfold TextOutput.item_line, line_of, field_or, py_get, TextOutput.subscript.
  rewrite Hname.
  destruct (lookup "priority" d), (lookup "estimated_cost" d); reflexivity.
Qed.

Lemma item_line_nameless (item : value) :
  nameless item -> TextOutput.item_line py_str item = Raise KeyError.
Proof.
  intros (d & -> & Hname).
  unfold TextOutput.item_line, py_get, TextOutput.subscript.
  rewrite Hname.
  destruct (lookup "priority" d), (lookup "estimated_cost" d); reflexivity.
Qed.

Lemma item_lines_named (items : list value) :
  Forall has_name items ->
  forall lines : list string,
  TextOutput.item_lines py_str items lines
  = Ok (lines ++ map (line_of py_str) items).
Proof.
  induction 1 as [| item items Hitem _ IH]; intros lines; simpl.
  - now rewrite app_nil_r.
  - rewrite (item_line_named item Hitem). unfold bind.
    rewrite IH, <- app_assoc. reflexivity.
Qed.

Lemma item_lines_stops (pre : list value) (x : value) (post : list value) :
  Forall has_name pre -> nameless x ->
  forall lines : list string,
  TextOutput.item_lines py_str (pre ++ x :: post) lines = Raise KeyError.
Proof.
  intros Hpre Hx.
  induction Hpre as [| item items Hitem _ IH]; intros lines; simpl.
  - now rewrite (item_line_nameless x Hx).
  - rewrite (item_line_named item Hitem). unfold bind. apply IH.
Qed.

End TextFacts.

(** X20: for a shopping list whose items all have an ["item"] key,
    [_format_text] returns the title, the rule, an empty line, one line per
    item in order, an empty line and the total, joined by line feeds, with
    ["medium"], the empty string and ["N/A"] for a missing priority, cost or
    total.  An item without the key makes it raise [KeyError], although the
    cache and the timing analysis accept such an item. *)
Theorem format_text_needs_item_names (py_str : value -> string) (d : dict)
    (items : list value) :
  field_or "shopping_list" (VList []) (VDict d) = VList items ->
  (Forall has_name items ->
   TextOutput._format_text py_str (VDict d)
   = Ok (Text.join Text.nl
           ([ "SHOPPING LIST"%string;
              "========================================"%string;
              EmptyString ]
            ++ map (line_of py_str) items
            ++ [ EmptyString;
                 ("Total: "
                  ++ py_str (field_or "total_estimated_cost" (VStr "N/A")
                                      (VDict d)))%string ])))
  /\ (forall (pre : list value) (x : value) (post : list value),
        items = pre ++ x :: post ->
        Forall has_name pre -> nameless x ->
        TextOutput._format_text py_str (VDict d) = Raise KeyError
        /\ name_of x = Ok EmptyString
        /\ Claude.suggest x = Ok (suggestion_of x)).
Proof.
  intros Hitems.
  assert (Hget : py_get (VDict d) "shopping_list" (VList []) = Ok (VList items)).
  { unfold py_get. unfold field_or in Hitems.
    destruct (lookup "shopping_list" d); now rewrite Hitems. }
  split.
  - intros Hnamed. unfold TextOutput._format_text.
    rewrite Hget. unfold bind at 1. simpl iterate. unfold bind at 1.
    rewrite (item_lines_named py_str items Hnamed). unfold bind at 1.
    unfold py_get, field_or.
    destruct (lookup "total_estimated_cost" d); unfold bind;
      now rewrite <- app_assoc.
  - intros pre x post -> Hpre Hx. split; [| split].
    + unfold TextOutput._format_text.
      rewrite Hget. unfold bind at 1. simpl iterate. unfold bind at 1.
      now rewrite (item_lines_stops py_str pre x post Hpre Hx).
    + destruct Hx as (dx & -> & Hname). unfold name_of, py_get.
      now rewrite Hname.
    + destruct Hx as (dx & -> & _). apply suggest_dict.
Qed.

Lemma format_text_needs_item_names_witness :
  TextOutput._format_text str_of_text
    (VDict [ ("shopping_list"%string,
              VList [ VDict [ ("item"%string, VStr "milk");
                              ("estimated_cost"%string, VStr "$4.99") ] ]) ])
  = Ok (Text.join Text.nl
          [ "SHOPPING LIST"%string;
            "========================================"%string;
            EmptyString;
            "[ ] milk (medium) - $4.99"%string;
            EmptyString;
            "Total: N/A"%string ]).
Proof.
  assert (H : Forall has_name
                [ VDict [ ("item"%string, VStr "milk");
                          ("estimated_cost"%string, VStr "$4.99") ] ])
    by (repeat constructor; eexists; eexists; split; reflexivity).
  exact (proj1 (format_text_needs_item_names str_of_text
                  [ ("shopping_list"%string,
                     VList [ VDict [ ("item"%string, VStr "milk");
                                     ("estimated_cost"%string, VStr "$4.99") ] ]) ]
                  _ eq_refl) H).
Defined.

Lemma extract_and_cache_items_only_appends_witness :
  has_key "milk" (ItemCache.load_cache fresh_cache) = true
  /\ lookup "milk"
            (ItemCache.load_cache
               (snd (ItemCache.extract_and_cache_items sample_payload
                                                       fresh_cache)))
     = lookup "milk" (ItemCache.load_cache fresh_cache).
Proof.
  assert (H : has_key "milk" (ItemCache.load_cache fresh_cache) = true)
    by reflexivity.
  split; [exact H |].
  destruct (extract_and_cache_items_only_appends sample_payload fresh_cache)
    as (added & _ & Hframe).
  exact (Hframe "milk"%string H).
Defined.
